(** * UnbounceConnection: bulk extraction of Pages and Leads

    Shallow embedding of [bulk_data_extraction/unbounce_connection.py]:
    the cursor pagination loops of [bulk_get_pages] and [bulk_get_leads],
    the lead fan-out, the rate counter, the runtime guard, and the filter
    processing of [process_date_range], [process_bulk_pages],
    [process_bulk_leads] and [bulk_extract]. *)

From Stdlib Require Import String List ZArith Lia Bool Ascii Permutation.
Import ListNotations.
Open Scope string_scope.
Open Scope list_scope.
Open Scope Z_scope.
Set Warnings "-register-all".

(** ** Python values and exceptions *)

(** Values a caller may put in the [filters] argument. *)
Inductive PyValue : Type :=
| PStr (s : string)
| PList (l : list PyValue)
| PDict (d : list (string * PyValue))
| PInt (z : Z)
| PNone.

(** The exceptions the methods can raise.  [OutOfFuel] is not a Python
    exception: it marks a [while] loop cut off by the fuel of the model. *)
Inductive PyExc : Type :=
| TypeError | ValueError | KeyError | AttributeError | RecursionError
| OutOfFuel.

Inductive result (A : Type) : Type :=
| Ok (a : A)
| Err (e : PyExc).
Arguments Ok {A} a.
Arguments Err {A} e.

(** Python dictionary lookup on an association list (keys are unique in
    a dict, the first binding is the one found). *)
Fixpoint py_lookup {V : Type} (k : string) (d : list (string * V)) : option V :=
  match d with
  | [] => None
  | (k', v) :: d' => if String.eqb k k' then Some v else py_lookup k d'
  end.

Definition py_in (k : string) (l : list string) : bool :=
  existsb (String.eqb k) l.

(** ** Records and data frames

    A JSON object returned by the API: field name to string value.  A
    pandas frame is its column labels ([df.columns]) and its rows; a row is
    kept as the record it came from, with its pandas index label, and a
    column the record lacks holds NaN there, which [py_lookup] reads as
    [None]. *)
Definition Record := list (string * string).
Definition Row := (nat * Record)%type.

(** [pd.DataFrame(records)]: the default RangeIndex labels 0 .. n-1. *)
Fixpoint label_from (i : nat) (rs : list Record) : list Row :=
  match rs with
  | [] => []
  | r :: rs' => (i, r) :: label_from (S i) rs'
  end.
Definition to_frame (rs : list Record) : list Row := label_from 0 rs.

(** The labels of [b] not in [seen], each once, in order of first
    appearance. *)
Fixpoint add_labels (seen : list string) (b : list string) : list string :=
  match b with
  | [] => []
  | x :: b' => if py_in x seen then add_labels seen b' else x :: add_labels (x :: seen) b'
  end.

(** [Index.union(other, sort=False)], as [DataFrame.append] joins the
    columns: the labels of [a], then those of [b] not already there. *)
Definition col_union (a b : list string) : list string := a ++ add_labels a b.

(** The columns of [pd.DataFrame(records)]: every field of every record, in
    order of first appearance. *)
Definition cols_of (rs : list Record) : list string :=
  col_union [] (concat (map (map fst) rs)).

(** A duplicate-detection key: the values of the [subset] columns, [None]
    standing for NaN where a record lacks the column. *)
Definition Key := list (option string).

Definition key_of (subset : list string) (r : Record) : Key :=
  map (fun c => py_lookup c r) subset.

Definition opt_eqb (a b : option string) : bool :=
  match a, b with
  | Some x, Some y => String.eqb x y
  | None, None => true
  | _, _ => false
  end.

Fixpoint key_eqb (k1 k2 : Key) : bool :=
  match k1, k2 with
  | [], [] => true
  | a :: k1', b :: k2' => opt_eqb a b && key_eqb k1' k2'
  | _, _ => false
  end.

Definition key_mem (k : Key) (ks : list Key) : bool := existsb (key_eqb k) ks.

(** [df.duplicated(subset)] and [df.drop_duplicates(subset)] first check
    that every label of [subset] is a column of the frame, and raise
    [KeyError] otherwise. *)
Definition subset_check (subset cols : list string) : result unit :=
  if forallb (fun c => py_in c cols) subset then Ok tt else Err KeyError.

(** [df.duplicated(subset, keep='first')] and
    [df.drop_duplicates(subset, keep='first')] in one pass, once the subset
    check has passed: the rows kept and the rows flagged as duplicates, both
    in frame order.  [seen] holds the keys of the rows before. *)
Fixpoint split_dups (subset : list string) (seen : list Key) (rows : list Row)
  : list Row * list Row :=
  match rows with
  | [] => ([], [])
  | (i, r) :: rows' =>
      let k := key_of subset r in
      if key_mem k seen then
        let '(kept, dropped) := split_dups subset seen rows' in
        (kept, (i, r) :: dropped)
      else
        let '(kept, dropped) := split_dups subset (k :: seen) rows' in
        ((i, r) :: kept, dropped)
  end.

Fixpoint labels_eqb (a b : list string) : bool :=
  match a, b with
  | [], [] => true
  | x :: a', y :: b' => String.eqb x y && labels_eqb a' b'
  | _, _ => false
  end.

(** Row by row: the same index label, and the same value in each column of
    [cols], NaN matching NaN. *)
Fixpoint rows_equal (cols : list string) (a b : list Row) : bool :=
  match a, b with
  | [], [] => true
  | x :: a', y :: b' =>
      Nat.eqb (fst x) (fst y) && key_eqb (key_of cols (snd x)) (key_of cols (snd y))
      && rows_equal cols a' b'
  | _, _ => false
  end.

(** [DataFrame.equals] on two frames given by their columns and rows: the
    same column labels in the same order, the same index labels and the same
    values.  Every value is a string, so every column has dtype object and
    the dtypes agree as soon as the columns do. *)
Definition df_equals (cols_a : list string) (a : list Row) (cols_b : list string) (b : list Row)
  : bool :=
  labels_eqb cols_a cols_b && rows_equal cols_a a b.

(** [df[col]] raises [KeyError] unless [col] is a column of the frame; the
    series holds NaN ([None]) for the rows whose record lacks it. *)
Definition df_has_col (col : string) (cols : list string) : bool := py_in col cols.

Definition df_column (col : string) (cols : list string) (rows : list Record)
  : result (list (option string)) :=
  if df_has_col col cols then Ok (map (py_lookup col) rows) else Err KeyError.

(** [df.rename(columns={old: new})], on a column label and on a record. *)
Definition rename_label (old new : string) (c : string) : string :=
  if String.eqb c old then new else c.

Definition rename_field (old new : string) (r : Record) : Record :=
  map (fun kv => if String.eqb (fst kv) old then (new, snd kv) else kv) r.

(** [series.isin(values)] for a list of Python values. *)
Definition isin (values : list PyValue) (v : option string) : bool :=
  match v with
  | Some s => existsb (fun x => match x with PStr s' => String.eqb s s' | _ => false end) values
  | None => false
  end.

(** ** The connection, the clock and the request log *)

Inductive Query : Type :=
| QPages (date_start date_end : option string)
| QLeads (page_id : PyValue) (date_start date_end : option string).

(** The observable effects: each request with the number of records it
    returned, and each [time.sleep]. *)
Inductive Event : Type :=
| EvReq (q : Query) (n : nat)
| EvSleep (secs : Z).

(** The [unbounceapi] client: the response to the [k]-th request of the
    process, and how long (in microseconds) that request takes. *)
Record Client : Type := {
  respond : nat -> Query -> list Record;
  latency : nat -> Z
}.

Record Conn : Type := {
  get_timeout_time : Z;
  extract_timeout_time : Z;
  client : Client
}.

(** The world: the clock in microseconds, the number of requests made so
    far, and the event log. *)
Record World : Type := {
  w_now : Z;
  w_calls : nat;
  w_log : list Event
}.

Definition M (A : Type) : Type := World -> result A * World.

Definition ret {A} (a : A) : M A := fun w => (Ok a, w).
Definition raise {A} (e : PyExc) : M A := fun w => (Err e, w).
Definition bind {A B} (m : M A) (f : A -> M B) : M B :=
  fun w => match m w with
           | (Ok a, w') => f a w'
           | (Err e, w') => (Err e, w')
           end.

Notation "x <- m ;; k" := (bind m (fun x => k))
  (at level 61, m at next level, right associativity).
Notation "' p <- m ;; k" := (bind m (fun x => match x with p => k end))
  (at level 61, p pattern, m at next level, right associativity).
Notation "m ;;; k" := (bind m (fun _ => k)) (at level 61, right associativity).

Definition lift {A} (r : result A) : M A :=
  match r with Ok a => ret a | Err e => raise e end.

Definition now : M Z := fun w => (Ok (w_now w), w).

(** [time.sleep(secs)]. *)
Definition sleep (secs : Z) : M unit :=
  fun w => (Ok tt, {| w_now := w_now w + secs * 1000000;
                      w_calls := w_calls w;
                      w_log := w_log w ++ [EvSleep secs] |}).

(** One request through the client. *)
Definition request (c : Conn) (q : Query) : M (list Record) :=
  fun w =>
    let resp := respond (client c) (w_calls w) q in
    (Ok resp, {| w_now := w_now w + latency (client c) (w_calls w);
                 w_calls := S (w_calls w);
                 w_log := w_log w ++ [EvReq q (length resp)] |}).

(** [(datetime.now() - START_TIME).seconds]: a timedelta is normalised to
    days, seconds in [0, 86400) and microseconds; [.seconds] is the middle
    component only. *)
Definition td_seconds (elapsed_us : Z) : Z :=
  (elapsed_us mod (86400 * 1000000)) / 1000000.

(** The runtime guard at the top of each [while cont] iteration. *)
Definition deadline_check (c : Conn) (start : Z) : M unit :=
  t <- now ;;
  if td_seconds (t - start) >? extract_timeout_time c
  then raise RecursionError
  else ret tt.

(** [itr += 1; if itr == 495: time.sleep(60); itr = 0]. *)
Definition bump (itr : nat) : M nat :=
  let itr' := S itr in
  if Nat.eqb itr' 495 then sleep 60 ;;; ret 0%nat else ret itr'.

(** ** The pagination loop shared by [bulk_get_pages] and [bulk_get_leads]

    The two [while cont] loops have the same body; they differ in the query
    sent, the duplicate subset and the creation-date field read from the last
    record.  The loop state is the cursor [date_start], the accumulated frame
    (its rows and its columns) and the rate counter [itr]. *)
Record LoopState : Type := {
  ls_date_start : option string;
  ls_acc : list Row;
  ls_cols : list string;
  ls_itr : nat
}.

Section Loop.
Variable c : Conn.
Variable start : Z.
Variable mkq : option string -> Query.
Variable subset : list string.
Variable date_field : string.

(** One iteration; the boolean is the new value of [cont] ([false] also for
    the [break] on an empty response).  The appended frame keeps the columns
    of every record appended, also of the rows [drop_duplicates] removes. *)
Definition fetch_iter (st : LoopState) : M (bool * LoopState) :=
  deadline_check c start ;;;
  page <- request c (mkq (ls_date_start st)) ;;
  match page with
  | [] => ret (false, st)
  | _ :: _ =>
      let new_df := to_frame page in
      let new_cols := cols_of page in
      let cols := col_union (ls_cols st) new_cols in
      let appended := ls_acc st ++ new_df in
      lift (subset_check subset cols) ;;;
      let '(kept, dropped) := split_dups subset [] appended in
      cursor <- lift (match py_lookup date_field (last page []) with
                      | Some d => Ok d
                      | None => Err KeyError
                      end) ;;
      let cont := negb (df_equals new_cols new_df cols dropped) in
      itr' <- bump (ls_itr st) ;;
      ret (cont, {| ls_date_start := Some cursor; ls_acc := kept; ls_cols := cols;
                    ls_itr := itr' |})
  end.

Fixpoint fetch_while (fuel : nat) (st : LoopState) : M LoopState :=
  match fuel with
  | O => raise OutOfFuel
  | S fuel' =>
      '(cont, st') <- fetch_iter st ;;
      if cont then fetch_while fuel' st' else ret st'
  end.
End Loop.

Definition page_subset : list string := ["id"].
Definition lead_subset : list string := ["created_at"; "id"; "page_id"; "variant_id"].

(** ** [bulk_get_pages] *)

(** Python truthiness of an optional list or string argument. *)
Definition list_truthy {A} (o : option (list A)) : bool :=
  match o with Some (_ :: _) => true | _ => false end.

Definition str_truthy (o : option string) : bool :=
  match o with Some s => negb (String.eqb s "") | None => false end.

(** [df = df[df[col].isin(values)]]; a filtered frame keeps the columns of
    the frame it came from. *)
Definition filter_isin (cols : list string) (col : string) (values : list PyValue)
  (df : list Record) : result (list Record) :=
  if df_has_col col cols
  then Ok (filter (fun r => isin values (py_lookup col r)) df)
  else Err KeyError.

(** [df = df[df[col] == v]]. *)
Definition filter_eq (cols : list string) (col : string) (v : string)
  (df : list Record) : result (list Record) :=
  if df_has_col col cols
  then Ok (filter (fun r => opt_eqb (py_lookup col r) (Some v)) df)
  else Err KeyError.

Definition rbind {A B} (r : result A) (f : A -> result B) : result B :=
  match r with Ok a => f a | Err e => Err e end.

(** The tail of [bulk_get_pages] on the frame of the loop (columns [cols],
    records [acc]): rename [id] to [page_id], then the domain, page id and
    state filters, then [to_dict(orient='records')]. *)
Definition pages_finish (cols : list string) (acc : list Record)
  (domain_list page_id_list : option (list PyValue)) (state : option string)
  : result (list Record) :=
  let cols0 := map (rename_label "id" "page_id") cols in
  let df0 := map (rename_field "id" "page_id") acc in
  rbind (match domain_list with
         | Some l => if list_truthy domain_list then filter_isin cols0 "domain" l df0 else Ok df0
         | None => Ok df0
         end) (fun df1 =>
  rbind (match page_id_list with
         | Some l => if list_truthy page_id_list then filter_isin cols0 "page_id" l df1 else Ok df1
         | None => Ok df1
         end) (fun df2 =>
  match state with
  | Some s => if str_truthy state then filter_eq cols0 "state" s df2 else Ok df2
  | None => Ok df2
  end)).

Definition pages_loop (c : Conn) (start : Z) (date_end : option string) : nat -> LoopState -> M LoopState :=
  fetch_while c start (fun ds => QPages ds date_end) page_subset "createdAt".

(** A loop state on the frame [pd.DataFrame] of the rows [acc] (so with
    their columns); [pd.DataFrame()] for [acc = []]. *)
Definition init_state (date_start : option string) (acc : list Row) (itr : nat) : LoopState :=
  {| ls_date_start := date_start; ls_acc := acc; ls_cols := cols_of (map snd acc);
     ls_itr := itr |}.

(** [bulk_get_pages] with the columns of its final frame, which the
    returned dicts carry. *)
Definition bulk_get_pages_frame (fuel : nat) (c : Conn) (date_start date_end : option string)
  (domain_list page_id_list : option (list PyValue)) (state : option string)
  : M (list string * list Record) :=
  start <- now ;;
  st <- pages_loop c start date_end fuel (init_state date_start [] 0) ;;
  rows <- lift (pages_finish (ls_cols st) (map snd (ls_acc st)) domain_list page_id_list state) ;;
  ret (map (rename_label "id" "page_id") (ls_cols st), rows).

(** The list of [to_dict(orient='records')]: a dict per row, in frame
    order.  Each dict also holds NaN for the columns its record lacks; the
    record leaves them out, and [py_lookup] reads them as [None]. *)
Definition bulk_get_pages (fuel : nat) (c : Conn) (date_start date_end : option string)
  (domain_list page_id_list : option (list PyValue)) (state : option string) : M (list Record) :=
  fr <- bulk_get_pages_frame fuel c date_start date_end domain_list page_id_list state ;;
  ret (snd fr).

(** ** [bulk_get_leads] *)

(** [page_ids_all]: either the caller's Python list, or the pandas series
    [pd.DataFrame(pages)['page_id']]. *)
Inductive PageIds : Type :=
| IdsList (l : list PyValue)
| IdsSeries (s : list (option string)).

(** [pd.DataFrame(pages)[col]] on the dicts [to_dict(orient='records')]
    returned: each dict holds every column of the frame [cols], so the new
    frame has these columns when there is a dict, and none when the list is
    empty. *)
Definition records_column (col : string) (cols : list string) (rows : list Record)
  : result (list (option string)) :=
  match rows with
  | [] => Err KeyError
  | _ :: _ => df_column col cols rows
  end.

(** [page_ids_all.empty]: a pandas attribute, which a Python list lacks. *)
Definition attr_empty (ids : PageIds) : result bool :=
  match ids with
  | IdsList _ => Err AttributeError
  | IdsSeries s => Ok (match s with [] => true | _ => false end)
  end.

(** [for page_id in page_ids_all]. *)
Definition ids_values (ids : PageIds) : list PyValue :=
  match ids with
  | IdsList l => l
  | IdsSeries s => map (fun o => match o with Some x => PStr x | None => PNone end) s
  end.

Definition leads_loop (c : Conn) (start : Z) (page_id : PyValue) (date_end : option string)
  : nat -> LoopState -> M LoopState :=
  fetch_while c start (fun ds => QLeads page_id ds date_end) lead_subset "created_at".

(** [date_start = OG_DATE_START] at the top of each page id. *)
Definition reset_cursor (og_date_start : option string) (st : LoopState) : LoopState :=
  {| ls_date_start := og_date_start; ls_acc := ls_acc st; ls_cols := ls_cols st;
     ls_itr := ls_itr st |}.

(** The [for page_id in page_ids_all] loop: the cursor restarts at the
    caller's [date_start] for each page id, while the frame [leads_df] (rows
    and columns) and the counter [itr] carry over. *)
Fixpoint leads_for (fuel : nat) (c : Conn) (start : Z) (og_date_start date_end : option string)
  (ids : list PyValue) (st : LoopState) : M LoopState :=
  match ids with
  | [] => ret st
  | pid :: ids' =>
      st' <- leads_loop c start pid date_end fuel (reset_cursor og_date_start st) ;;
      leads_for fuel c start og_date_start date_end ids' st'
  end.

(** The tail of [bulk_get_leads]: rename [id] to [lead_id], then the lead id
    filter. *)
Definition leads_finish (cols : list string) (acc : list Record)
  (lead_id_list : option (list PyValue)) : result (list Record) :=
  let cols0 := map (rename_label "id" "lead_id") cols in
  let df0 := map (rename_field "id" "lead_id") acc in
  match lead_id_list with
  | Some l => if list_truthy lead_id_list then filter_isin cols0 "lead_id" l df0 else Ok df0
  | None => Ok df0
  end.

Definition bulk_get_leads (fuel : nat) (c : Conn) (date_start date_end : option string)
  (lead_id_list page_id_list : option (list PyValue)) : M (list Record) :=
  start <- now ;;
  ids <- (match page_id_list with
          | Some (x :: xs) => ret (IdsList (x :: xs))
          | _ =>
              fr <- bulk_get_pages_frame fuel c None date_end None None None ;;
              col <- lift (records_column "page_id" (fst fr) (snd fr)) ;;
              ret (IdsSeries col)
          end) ;;
  empty <- lift (attr_empty ids) ;;
  if empty then ret [] else
  st <- leads_for fuel c start date_start date_end (ids_values ids) (init_state date_start [] 0) ;;
  lift (leads_finish (ls_cols st) (map snd (ls_acc st)) lead_id_list).

(** ** Filter processing *)

Section Filters.
(** [datetime.strptime(s, '%Y-%m-%d')]: the day number of the date, or
    [None] when [strptime] raises.  It is a library function, so the
    development holds for any parser. *)
Variable strptime : string -> option Z.

(** [for key in d: if key not in accepted: raise ValueError]. *)
Fixpoint check_keys (accepted : list string) (keys : list string) : result unit :=
  match keys with
  | [] => Ok tt
  | k :: ks => if py_in k accepted then check_keys accepted ks else Err ValueError
  end.

(** One date of [process_date_range]: the [try: strptime ... except: raise
    ValueError] block, which also catches the [TypeError] of a non-string. *)
Definition parse_date (v : option PyValue) : result (option (string * Z)) :=
  match v with
  | None => Ok None
  | Some (PStr s) =>
      match strptime s with
      | Some n => Ok (Some (String.append s "T00:00:00.000Z", n))
      | None => Err ValueError
      end
  | Some _ => Err ValueError
  end.

Definition process_date_range (date_range : PyValue) : result (option string * option string) :=
  match date_range with
  | PDict d =>
      rbind (check_keys ["date_start"; "date_end"] (map fst d)) (fun _ =>
      rbind (parse_date (py_lookup "date_start" d)) (fun ps =>
      rbind (parse_date (py_lookup "date_end" d)) (fun pe =>
      match ps, pe with
      | Some (s, ns), Some (e, ne) =>
          if Z.eqb (ne - ns) 0 then Err ValueError
          else if Z.ltb (ne - ns) 0 then Err ValueError
          else Ok (Some s, Some e)
      | _, _ => Ok (option_map fst ps, option_map fst pe)
      end)))
  | _ => Err TypeError
  end.

(** A [str] filter becomes a one-element list, a [list] is kept. *)
Definition str_or_list (v : PyValue) : result (list PyValue) :=
  match v with
  | PStr s => Ok [PStr s]
  | PList l => Ok l
  | _ => Err TypeError
  end.

Definition opt_filter (d : list (string * PyValue)) (key : string) : result (option (list PyValue)) :=
  match py_lookup key d with
  | None => Ok None
  | Some v => rbind (str_or_list v) (fun l => Ok (Some l))
  end.

Definition opt_dates (d : list (string * PyValue)) : result (option string * option string) :=
  match py_lookup "created_at" d with
  | None => Ok (None, None)
  | Some v => process_date_range v
  end.

Record PageArgs : Type := {
  pa_date_start : option string; pa_date_end : option string;
  pa_domain_list : option (list PyValue); pa_page_id_list : option (list PyValue);
  pa_state : option string
}.

Record LeadArgs : Type := {
  la_date_start : option string; la_date_end : option string;
  la_lead_id_list : option (list PyValue); la_page_id_list : option (list PyValue)
}.

(** The checks of [process_bulk_pages], in the order of the source. *)
Definition page_filters (filters : PyValue) : result PageArgs :=
  match filters with
  | PDict d =>
      rbind (check_keys ["created_at"; "domain"; "page_id"; "state"] (map fst d)) (fun _ =>
      rbind (opt_dates d) (fun '(ds, de) =>
      rbind (opt_filter d "domain") (fun dl =>
      rbind (opt_filter d "page_id") (fun pl =>
      rbind (match py_lookup "state" d with
             | None => Ok None
             | Some (PStr s) =>
                 if py_in s ["published"; "unpublished"] then Ok (Some s) else Err ValueError
             | Some _ => Err ValueError
             end) (fun st =>
      Ok {| pa_date_start := ds; pa_date_end := de; pa_domain_list := dl;
            pa_page_id_list := pl; pa_state := st |})))))
  | _ => Err TypeError
  end.

(** The checks of [process_bulk_leads]. *)
Definition lead_filters (filters : PyValue) : result LeadArgs :=
  match filters with
  | PDict d =>
      rbind (check_keys ["created_at"; "lead_id"; "page_id"] (map fst d)) (fun _ =>
      rbind (opt_dates d) (fun '(ds, de) =>
      rbind (opt_filter d "lead_id") (fun ll =>
      rbind (opt_filter d "page_id") (fun pl =>
      Ok {| la_date_start := ds; la_date_end := de; la_lead_id_list := ll;
            la_page_id_list := pl |}))))
  | _ => Err TypeError
  end.

Definition process_bulk_pages (fuel : nat) (c : Conn) (filters : PyValue) : M (list Record) :=
  match page_filters filters with
  | Ok a => bulk_get_pages fuel c (pa_date_start a) (pa_date_end a)
              (pa_domain_list a) (pa_page_id_list a) (pa_state a)
  | Err e => raise e
  end.

Definition process_bulk_leads (fuel : nat) (c : Conn) (filters : PyValue) : M (list Record) :=
  match lead_filters filters with
  | Ok a => bulk_get_leads fuel c (la_date_start a) (la_date_end a)
              (la_lead_id_list a) (la_page_id_list a)
  | Err e => raise e
  end.

Definition bulk_extract (fuel : nat) (c : Conn) (extract_obj : string) (filters : PyValue)
  : M (list Record) :=
  if py_in extract_obj ["pages"; "leads"] then
    if String.eqb extract_obj "pages" then process_bulk_pages fuel c filters
    else process_bulk_leads fuel c filters
  else raise ValueError.
End Filters.

(** ** Concrete inputs

    A [strptime] for the zero-padded form [YYYY-MM-DD] (Python also accepts
    unpadded months and days; the development never depends on this
    instance), returning the proleptic Gregorian day number. *)
Definition digit (a : ascii) : option Z :=
  let n := Z.of_nat (nat_of_ascii a) - 48 in
  if (0 <=? n) && (n <=? 9) then Some n else None.

Fixpoint digits (s : string) : option Z :=
  match s with
  | EmptyString => Some 0
  | String a s' =>
      match digit a, digits s' with
      | Some d, Some v => Some (d * 10 ^ Z.of_nat (String.length s') + v)
      | _, _ => None
      end
  end.

Definition leap (y : Z) : bool :=
  ((y mod 4 =? 0) && negb (y mod 100 =? 0)) || (y mod 400 =? 0).

Definition days_in_month (y m : Z) : Z :=
  if m =? 2 then (if leap y then 29 else 28)
  else if (m =? 4) || (m =? 6) || (m =? 9) || (m =? 11) then 30 else 31.

Definition days_from_civil (y m d : Z) : Z :=
  let y' := if m <=? 2 then y - 1 else y in
  let era := y' / 400 in
  let yoe := y' - era * 400 in
  let doy := (153 * (if m >? 2 then m - 3 else m + 9) + 2) / 5 + d - 1 in
  let doe := yoe * 365 + yoe / 4 - yoe / 100 + doy in
  era * 146097 + doe - 719468.

Definition ymd_strptime (s : string) : option Z :=
  match String.length s, digits (substring 0 4 s), String.get 4 s,
        digits (substring 5 2 s), String.get 7 s, digits (substring 8 2 s) with
  | 10%nat, Some y, Some "-"%char, Some m, Some "-"%char, Some d =>
      if (1 <=? m) && (m <=? 12) && (1 <=? d) && (d <=? days_in_month y m)
      then Some (days_from_civil y m d) else None
  | _, _, _, _, _, _ => None
  end.

Definition mk_page (id created : string) : Record :=
  [("id", id); ("createdAt", created)].

Definition mk_lead (id created page_id : string) : Record :=
  [("id", id); ("created_at", created); ("page_id", page_id); ("variant_id", "a")].

(** A client answering the [k]-th request with the [k]-th page of a script,
    and an empty page after it, instantly. *)
Definition script_client (script : list (list Record)) : Client :=
  {| respond := fun k _ => nth k script []; latency := fun _ => 0 |}.

Definition conn_of (cl : Client) : Conn :=
  {| get_timeout_time := 600; extract_timeout_time := 3600; client := cl |}.

Definition w0 : World := {| w_now := 0; w_calls := 0; w_log := [] |}.

Example ymd_2020 : ymd_strptime "2020-03-01" = Some (days_from_civil 2020 3 1)
                   /\ days_from_civil 1970 1 1 = 0
                   /\ ymd_strptime "2019-02-29" = None.
Proof. vm_compute. auto. Qed.

(** ** Spec-side notions used in the statements *)

(** [l1] is [l2] with some elements removed, the rest in the same order. *)
Inductive subseq {A : Type} : list A -> list A -> Prop :=
| subseq_nil : subseq [] []
| subseq_keep x l1 l2 : subseq l1 l2 -> subseq (x :: l1) (x :: l2)
| subseq_skip x l1 l2 : subseq l1 l2 -> subseq l1 (x :: l2).

Definition row_keys (subset : list string) (rows : list Row) : list Key :=
  map (fun x => key_of subset (snd x)) rows.

(** The rows of a frame whose key is [k]. *)
Definition rows_with_key (subset : list string) (k : Key) (rows : list Row) : list Row :=
  filter (fun x => key_eqb (key_of subset (snd x)) k) rows.

(** The rate governor as the spec states it, read off the request log:
    counted requests raise the counter, a counter at 495 must be followed
    by a 60 second pause that resets it; nothing else may come in between.
    Lead requests that return no record are not counted. *)
Definition gov_step (cnt : nat) (ev : Event) : option nat :=
  match ev with
  | EvReq (QLeads _ _ _) n =>
      if Nat.ltb cnt 495 then Some (if Nat.eqb n 0 then cnt else S cnt) else None
  | EvSleep s => if Nat.eqb cnt 495 && Z.eqb s 60 then Some 0%nat else None
  | EvReq (QPages _ _) _ => None
  end.

Fixpoint gov_run (cnt : nat) (evs : list Event) : option nat :=
  match evs with
  | [] => Some cnt
  | ev :: evs' =>
      match gov_step cnt ev with
      | Some cnt' => gov_run cnt' evs'
      | None => None
      end
  end.

Definition lookup_event (ev : Event) : Prop :=
  match ev with
  | EvReq (QPages _ _) _ => True
  | EvSleep _ => True
  | EvReq (QLeads _ _ _) _ => False
  end.

(** ** Concrete scenarios

    Small clients used by the examples below; all latencies are zero
    unless stated. *)

Definition site_page (id created domain state : string) : Record :=
  [("id", id); ("createdAt", created); ("domain", domain); ("state", state)].

Definition page_a : Record :=
  site_page "pa" "2020-01-01T00:00:00Z" "a.example.com" "published".

Definition page_b : Record :=
  site_page "pb" "2020-01-02T00:00:00Z" "b.example.com" "unpublished".

(** Both pages, then the boundary page [page_b] again: the usual way the
    pages loop ends. *)
Definition boundary_client : Client := script_client [[page_a; page_b]; [page_b]].

(** A first page of a single record, then an empty page. *)
Definition short_client : Client := script_client [[page_a]; []].

(** Every call returns the single page [page_a]. *)
Definition constant_client : Client :=
  {| respond := fun _ _ => [page_a]; latency := fun _ => 0 |}.

(** The pages endpoint returns one page, the leads endpoint one lead of it. *)
Definition one_lead_client : Client :=
  {| respond := fun _ q => match q with
                           | QPages _ _ => [page_a]
                           | QLeads _ _ _ => [mk_lead "l1" "2020-01-03T00:00:00Z" "pa"]
                           end;
     latency := fun _ => 0 |}.

(** A two-letter page id for each [n < 676]. *)
Definition pid_of (n : nat) : string :=
  String (ascii_of_nat (65 + n mod 26)) (String (ascii_of_nat (65 + (n / 26) mod 26)) EmptyString).

Definition many_pages (n : nat) : list Record :=
  map (fun i => mk_page (pid_of i) "2020-01-01T00:00:00Z") (seq 0 n).

(** The pages endpoint lists 500 pages on every call; the leads endpoint
    has no lead for any of them. *)
Definition no_leads_client : Client :=
  {| respond := fun _ q => match q with
                           | QPages _ _ => many_pages 500
                           | QLeads _ _ _ => []
                           end;
     latency := fun _ => 0 |}.

(** Every call returns [page_a]; the first call takes 26 hours. *)
Definition slow_client : Client :=
  {| respond := fun _ _ => [page_a];
     latency := fun k => if Nat.eqb k 0 then 93600 * 1000000 else 0 |}.

Definition day_conn : Conn :=
  {| get_timeout_time := 100000; extract_timeout_time := 90000; client := slow_client |}.

(** The loop state and world after the first iteration on [boundary_client]. *)
Definition boundary_st1 : LoopState :=
  init_state (Some "2020-01-02T00:00:00Z") (to_frame [page_a; page_b]) 1.

Definition boundary_w1 : World :=
  {| w_now := 0; w_calls := 1; w_log := [EvReq (QPages None None) 2] |}.

Definition boundary_st2 : LoopState :=
  init_state (Some "2020-01-02T00:00:00Z") (to_frame [page_a; page_b]) 2.

Definition boundary_w2 : World :=
  {| w_now := 0; w_calls := 2;
     w_log := [EvReq (QPages None None) 2;
               EvReq (QPages (Some "2020-01-02T00:00:00Z") None) 1] |}.

(** The world after [bulk_get_leads] on [one_lead_client]. *)
Definition one_lead_w : World :=
  {| w_now := 0; w_calls := 4;
     w_log := [EvReq (QPages None None) 1;
               EvReq (QPages (Some "2020-01-01T00:00:00Z") None) 1;
               EvReq (QLeads (PStr "pa") None None) 1;
               EvReq (QLeads (PStr "pa") (Some "2020-01-03T00:00:00Z") None) 1] |}.

(** [created_at] ranges that end on or before their start. *)
Definition same_day_filters : list (string * PyValue) :=
  [("created_at", PDict [("date_start", PStr "2020-01-01"); ("date_end", PStr "2020-01-01")])].

Definition inverted_filters : list (string * PyValue) :=
  [("created_at", PDict [("date_start", PStr "2020-01-02"); ("date_end", PStr "2020-01-01")])].

(** ** World updates and filter predicates *)

Definition after_request (w : World) (lat : Z) (ev : Event) : World :=
  {| w_now := w_now w + lat; w_calls := S (w_calls w); w_log := w_log w ++ [ev] |}.

Definition after_sleep (w : World) (secs : Z) : World :=
  {| w_now := w_now w + secs * 1000000; w_calls := w_calls w; w_log := w_log w ++ [EvSleep secs] |}.

Ltac unfold_m :=
  cbv [fetch_iter deadline_check bind now request ret raise lift bump sleep] in *.

(** ** Filter validation *)

Definition accepted_keys (kind : string) : list string :=
  if String.eqb kind "pages" then ["created_at"; "domain"; "page_id"; "state"]
  else ["created_at"; "lead_id"; "page_id"].

Definition str_or_list_value (v : PyValue) : bool :=
  match v with PStr _ | PList _ => true | _ => false end.

(** The filters mappings C8 says must be rejected, in its words: an
    unrecognised key (also inside [created_at]), a value of the wrong type,
    an invalid publish state, a malformed date, or a date range whose end
    is not after its start. *)
Inductive filters_invalid (strptime : string -> option Z) (kind : string)
  (d : list (string * PyValue)) : Prop :=
| inv_key k :
    In k (map fst d) -> ~ In k (accepted_keys kind) -> filters_invalid strptime kind d
| inv_created_type v :
    py_lookup "created_at" d = Some v -> (forall dr, v <> PDict dr) ->
    filters_invalid strptime kind d
| inv_list_type k v :
    In k ["domain"; "page_id"; "lead_id"] -> In k (accepted_keys kind) ->
    py_lookup k d = Some v -> str_or_list_value v = false ->
    filters_invalid strptime kind d
| inv_state v :
    kind = "pages" -> py_lookup "state" d = Some v ->
    v <> PStr "published" -> v <> PStr "unpublished" ->
    filters_invalid strptime kind d
| inv_date_key dr k :
    py_lookup "created_at" d = Some (PDict dr) -> In k (map fst dr) ->
    ~ In k ["date_start"; "date_end"] -> filters_invalid strptime kind d
| inv_date_format dr k v :
    py_lookup "created_at" d = Some (PDict dr) -> In k ["date_start"; "date_end"] ->
    py_lookup k dr = Some v -> (forall s, v = PStr s -> strptime s = None) ->
    filters_invalid strptime kind d
| inv_range dr s e ns ne :
    py_lookup "created_at" d = Some (PDict dr) ->
    py_lookup "date_start" dr = Some (PStr s) -> py_lookup "date_end" dr = Some (PStr e) ->
    strptime s = Some ns -> strptime e = Some ne -> ne <= ns ->
    filters_invalid strptime kind d.

Definition validation_error (e : PyExc) : Prop := e = TypeError \/ e = ValueError.

(** What a successful [page_filters] / [lead_filters] has checked. *)
Definition filters_checked (strptime : string -> option Z) (kind : string)
  (d : list (string * PyValue)) : Prop :=
  (forall k, In k (map fst d) -> In k (accepted_keys kind)) /\
  (forall v, py_lookup "created_at" d = Some v ->
     exists p, process_date_range strptime v = Ok p) /\
  (forall k v, In k ["domain"; "page_id"; "lead_id"] -> In k (accepted_keys kind) ->
     py_lookup k d = Some v -> str_or_list_value v = true) /\
  (kind = "pages" -> forall v, py_lookup "state" d = Some v ->
     v = PStr "published" \/ v = PStr "unpublished").


(** ** Predicates for the further properties *)

(** How one date of a [created_at] range comes out of [process_date_range]:
    absent, or a string that [strptime] accepts, passed on with the time
    suffix, together with its day number. *)
Definition date_result (strptime : string -> option Z) (v : option PyValue)
  (out : option string) (n : option Z) : Prop :=
  match v with
  | None => out = None /\ n = None
  | Some (PStr s) =>
      exists z, strptime s = Some z /\ n = Some z /\ out = Some (String.append s "T00:00:00.000Z")
  | Some _ => False
  end.

(** Whether a record passes a post-hoc [isin] or [==] filter; an absent or
    empty (falsy) filter lets every record through. *)
Definition passes_isin (vals : option (list PyValue)) (col : string) (r : Record) : bool :=
  match vals with
  | Some l => if list_truthy vals then isin l (py_lookup col r) else true
  | None => true
  end.

Definition passes_eq (v : option string) (col : string) (r : Record) : bool :=
  match v with
  | Some s => if str_truthy v then opt_eqb (py_lookup col r) (Some s) else true
  | None => true
  end.

(** The page governor: [gov_step] for the requests of [bulk_get_pages]. *)
Definition pgov_step (cnt : nat) (ev : Event) : option nat :=
  match ev with
  | EvReq (QPages _ _) n =>
      if Nat.ltb cnt 495 then Some (if Nat.eqb n 0 then cnt else S cnt) else None
  | EvSleep s => if Nat.eqb cnt 495 && Z.eqb s 60 then Some 0%nat else None
  | EvReq (QLeads _ _ _) _ => None
  end.

Fixpoint pgov_run (cnt : nat) (evs : list Event) : option nat :=
  match evs with
  | [] => Some cnt
  | ev :: evs' =>
      match pgov_step cnt ev with
      | Some cnt' => pgov_run cnt' evs'
      | None => None
      end
  end.

(** The events of the lead loop of one page id: a first request from the
    caller's [date_start], then further requests for the same page id and
    [date_end], and pauses. *)
Definition same_page_event (pid : PyValue) (de : option string) (ev : Event) : Prop :=
  match ev with
  | EvReq (QLeads p _ e) _ => p = pid /\ e = de
  | EvSleep _ => True
  | EvReq (QPages _ _) _ => False
  end.

Definition lead_segment (ods de : option string) (pid : PyValue) (seg : list Event) : Prop :=
  exists n rest, seg = EvReq (QLeads pid ods de) n :: rest /\ Forall (same_page_event pid de) rest.

(** ** Lemmas on keys and duplicate detection *)

Lemma opt_eqb_eq a b : opt_eqb a b = true <-> a = b.
Proof.
  destruct a as [x|], b as [y|]; simpl; split; intro H; try discriminate; auto.
  - apply String.eqb_eq in H; subst; reflexivity.
  - inversion H; subst; apply String.eqb_refl.
Qed.

Lemma key_eqb_eq k1 k2 : key_eqb k1 k2 = true <-> k1 = k2.
Proof.
  revert k2; induction k1 as [|a k1 IH]; intros [|b k2]; simpl;
    split; intro H; try discriminate; auto.
  - apply andb_true_iff in H as [H1 H2].
    apply opt_eqb_eq in H1; apply IH in H2; subst; reflexivity.
  - inversion H; subst. apply andb_true_iff; split.
    + apply opt_eqb_eq; reflexivity.
    + apply IH; reflexivity.
Qed.

Lemma key_mem_In k ks : key_mem k ks = true <-> In k ks.
Proof.
  unfold key_mem; rewrite existsb_exists; split.
  - intros [x [Hx He]]. apply key_eqb_eq in He; subst; exact Hx.
  - intro H; exists k; split; [exact H | apply key_eqb_eq; reflexivity].
Qed.

Lemma key_eqb_refl k : key_eqb k k = true.
Proof. apply key_eqb_eq; reflexivity. Qed.

Lemma rows_equal_length cols a b : rows_equal cols a b = true -> length a = length b.
Proof.
  revert b; induction a as [|x a IH]; intros [|y b]; simpl; intro H;
    try discriminate; auto.
  apply andb_true_iff in H as [_ H]; rewrite (IH b H); reflexivity.
Qed.

Lemma df_equals_length ca a cb b : df_equals ca a cb b = true -> length a = length b.
Proof.
  unfold df_equals; intro H. apply andb_true_iff in H as [_ H].
  exact (rows_equal_length _ _ _ H).
Qed.

Lemma rows_equal_refl cols a : rows_equal cols a a = true.
Proof.
  induction a as [|[i r] a IH]; simpl; [reflexivity|].
  rewrite Nat.eqb_refl, key_eqb_refl, IH. reflexivity.
Qed.

Lemma labels_eqb_refl a : labels_eqb a a = true.
Proof. induction a as [|x a IH]; simpl; [reflexivity|]. rewrite String.eqb_refl, IH. reflexivity. Qed.

(** ** Column labels *)

Lemma add_labels_in seen b x :
  In x (add_labels seen b) <-> In x b /\ ~ In x seen.
Proof.
  revert seen; induction b as [|y b IH]; intro seen; simpl; [tauto|].
  destruct (py_in y seen) eqn:E.
  - rewrite IH. split; [tauto|]. intros [[<-|Hx] Hn]; [|tauto].
    exfalso; apply Hn. apply existsb_exists in E as [z [Hz Hzy]].
    apply String.eqb_eq in Hzy; subst; exact Hz.
  - simpl. rewrite IH. simpl.
    assert (Hy : ~ In y seen).
    { intro Hin. assert (Hy : py_in y seen = true)
        by (apply existsb_exists; exists y; split; [exact Hin|apply String.eqb_refl]).
      congruence. }
    split.
    + intros [<-|[Hx Hn]]; [split; [left; reflexivity|exact Hy]|].
      split; [right; exact Hx|]. intro Hin; apply Hn; right; exact Hin.
    + intros [[<-|Hx] Hn]; [left; reflexivity|].
      destruct (String.eqb_spec y x) as [->|Hne]; [left; reflexivity|].
      right. split; [exact Hx|]. intros [He|He]; [exact (Hne He)|exact (Hn He)].
Qed.

Lemma add_labels_covered seen b :
  (forall x, In x b -> In x seen) -> add_labels seen b = [].
Proof.
  revert seen; induction b as [|y b IH]; intros seen H; simpl; [reflexivity|].
  assert (E : py_in y seen = true).
  { apply existsb_exists. exists y. split; [apply H; left; reflexivity|apply String.eqb_refl]. }
  rewrite E. apply IH. intros x Hx. apply H. right; exact Hx.
Qed.

Lemma add_labels_fresh seen b :
  NoDup b -> (forall x, In x b -> ~ In x seen) -> add_labels seen b = b.
Proof.
  revert seen; induction b as [|y b IH]; intros seen Hnd H; simpl; [reflexivity|].
  inversion Hnd as [|? ? Hny Hnd']; subst.
  assert (E : py_in y seen = false).
  { apply not_true_iff_false. intro Hy. apply existsb_exists in Hy as [z [Hz Hzy]].
    apply String.eqb_eq in Hzy; subst. exact (H z (or_introl eq_refl) Hz). }
  rewrite E. f_equal. apply IH; [exact Hnd'|].
  intros x Hx [He|He]; [subst; exact (Hny Hx)|exact (H x (or_intror Hx) He)].
Qed.

Lemma add_labels_nodup seen b : NoDup (add_labels seen b).
Proof.
  revert seen; induction b as [|y b IH]; intro seen; simpl; [constructor|].
  destruct (py_in y seen); [apply IH|].
  constructor; [|apply IH]. intro Hin. apply add_labels_in in Hin as [_ Hn].
  apply Hn. left; reflexivity.
Qed.

Lemma col_union_in a b x : In x (col_union a b) <-> In x a \/ In x b.
Proof.
  unfold col_union. rewrite in_app_iff, add_labels_in.
  destruct (in_dec string_dec x a); tauto.
Qed.

Lemma cols_of_in rs x : In x (cols_of rs) <-> exists r, In r rs /\ In x (map fst r).
Proof.
  unfold cols_of. rewrite col_union_in, in_concat. simpl. split.
  - intros [[]|[l [Hl Hx]]]. apply in_map_iff in Hl as [r [<- Hr]]. eauto.
  - intros [r [Hr Hx]]. right. exists (map fst r). split; [apply in_map; exact Hr|exact Hx].
Qed.

Lemma cols_of_nodup rs : NoDup (cols_of rs).
Proof. apply add_labels_nodup. Qed.

Lemma col_union_nil_l b : NoDup b -> col_union [] b = b.
Proof. intro H. unfold col_union. simpl. apply add_labels_fresh; auto. Qed.

Lemma col_union_self a : col_union a a = a.
Proof. unfold col_union. rewrite add_labels_covered; [apply app_nil_r|auto]. Qed.

Lemma subset_check_in subset cols :
  subset_check subset cols = Ok tt <-> forall x, In x subset -> In x cols.
Proof.
  unfold subset_check. destruct (forallb (fun c => py_in c cols) subset) eqn:E; split;
    intro H; try discriminate; try reflexivity.
  - intros x Hx. rewrite forallb_forall in E. specialize (E x Hx).
    apply existsb_exists in E as [z [Hz Hzx]]. apply String.eqb_eq in Hzx; subst; exact Hz.
  - exfalso. apply not_true_iff_false in E. apply E. apply forallb_forall. intros x Hx.
    apply existsb_exists. exists x. split; [exact (H x Hx)|apply String.eqb_refl].
Qed.

Lemma split_dups_length subset seen rows :
  (length (fst (split_dups subset seen rows)) + length (snd (split_dups subset seen rows))
   = length rows)%nat.
Proof.
  revert seen; induction rows as [|[i r] rows IH]; intro seen; simpl; auto.
  destruct (key_mem (key_of subset r) seen).
  - specialize (IH seen). destruct (split_dups subset seen rows); simpl in *. lia.
  - specialize (IH (key_of subset r :: seen)).
    destruct (split_dups subset (key_of subset r :: seen) rows); simpl in *. lia.
Qed.

(** Rows already deduplicated pass through [split_dups] untouched. *)
Lemma split_dups_prefix subset seen acc rest :
  NoDup (row_keys subset acc) ->
  (forall x, In x acc -> ~ In (key_of subset (snd x)) seen) ->
  split_dups subset seen (acc ++ rest)
  = let '(kept, dropped) := split_dups subset (rev (row_keys subset acc) ++ seen) rest in
    (acc ++ kept, dropped).
Proof.
  revert seen; induction acc as [|[i r] acc IH]; intros seen Hnd Hfresh; simpl.
  - destruct (split_dups subset seen rest); reflexivity.
  - unfold row_keys in Hnd; simpl in Hnd. inversion Hnd as [|? ? Hnin Hnd']; subst.
    assert (Hm : key_mem (key_of subset r) seen = false).
    { destruct (key_mem (key_of subset r) seen) eqn:E; auto.
      apply key_mem_In in E. exfalso; apply (Hfresh (i, r)); simpl; auto. }
    rewrite Hm. rewrite IH.
    + rewrite <- app_assoc. simpl.
      destruct (split_dups subset (rev (row_keys subset acc) ++ key_of subset r :: seen) rest);
        reflexivity.
    + exact Hnd'.
    + intros x Hx Hin. destruct Hin as [He|Hin].
      * apply Hnin. rewrite He. apply (in_map (fun y => key_of subset (snd y))). exact Hx.
      * apply (Hfresh x); simpl; auto.
Qed.

(** The kept rows: unique keys, none already [seen], every key of the input
    kept or seen, and a subsequence of the input. *)
Lemma split_dups_kept subset seen rows :
  let kept := fst (split_dups subset seen rows) in
  NoDup (row_keys subset kept) /\
  (forall x, In x kept -> ~ In (key_of subset (snd x)) seen) /\
  (forall x, In x rows -> In (key_of subset (snd x)) seen \/ In (key_of subset (snd x)) (row_keys subset kept)) /\
  subseq kept rows.
Proof.
  revert seen; induction rows as [|[i r] rows IH]; intro seen; simpl.
  - split; [apply NoDup_nil|]. split; [intros x Hx; contradiction|].
    split; [intros x Hx; contradiction|apply subseq_nil].
  - destruct (key_mem (key_of subset r) seen) eqn:Em.
    + specialize (IH seen). destruct (split_dups subset seen rows) as [kept dropped].
      simpl in *. destruct IH as [H1 [H2 [H3 H4]]].
      repeat split; auto.
      * intros x [Hx|Hx]; [subst; left; apply key_mem_In; exact Em | apply H3; exact Hx].
      * constructor; exact H4.
    + specialize (IH (key_of subset r :: seen)).
      destruct (split_dups subset (key_of subset r :: seen) rows) as [kept dropped].
      simpl in *. destruct IH as [H1 [H2 [H3 H4]]].
      repeat split.
      * unfold row_keys; simpl; constructor; [|exact H1].
        intro Hin. apply in_map_iff in Hin as [x [Hk Hx]].
        apply (H2 x Hx). left; symmetry; exact Hk.
      * intros x [Hx|Hx].
        -- subst; simpl. intro Hin. apply key_mem_In in Hin. congruence.
        -- intro Hin. apply (H2 x Hx). right; exact Hin.
      * intros x [Hx|Hx].
        -- subst; right; left; reflexivity.
        -- destruct (H3 x Hx) as [[He|Hs]|Hk].
           ++ right; left; exact He.
           ++ left; exact Hs.
           ++ right; right; exact Hk.
      * constructor; exact H4.
Qed.

(** The kept rows are first occurrences: the key of each is not [seen] and
    no row before it in the input has it. *)
Lemma split_dups_first subset seen rows x :
  In x (fst (split_dups subset seen rows)) ->
  exists pre post, rows = pre ++ x :: post /\
    ~ In (key_of subset (snd x)) seen /\ ~ In (key_of subset (snd x)) (row_keys subset pre).
Proof.
  revert seen; induction rows as [|[i r] rows IH]; intros seen Hx; simpl in Hx; [contradiction|].
  destruct (key_mem (key_of subset r) seen) eqn:Em.
  - specialize (IH seen). destruct (split_dups subset seen rows) as [kept dropped].
    simpl in Hx. destruct (IH Hx) as [pre [post [-> [Hs Hp]]]].
    exists ((i, r) :: pre), post. split; [reflexivity|]. split; [exact Hs|].
    unfold row_keys; simpl. intros [He|Hin]; [|exact (Hp Hin)].
    apply Hs. rewrite <- He. apply key_mem_In. exact Em.
  - specialize (IH (key_of subset r :: seen)).
    destruct (split_dups subset (key_of subset r :: seen) rows) as [kept dropped].
    simpl in Hx. destruct Hx as [<-|Hx].
    + exists [], rows. split; [reflexivity|]. split; [|simpl; auto].
      intro Hin. apply key_mem_In in Hin. simpl in Hin. congruence.
    + destruct (IH Hx) as [pre [post [-> [Hs Hp]]]].
      exists ((i, r) :: pre), post. split; [reflexivity|].
      split; [intro Hin; apply Hs; right; exact Hin|].
      unfold row_keys; simpl. intros [He|Hin]; [apply Hs; left; exact He|exact (Hp Hin)].
Qed.

(** ** One iteration of the pagination loop *)

Lemma fetch_iter_ok c start mkq subset fld st w b st' w' :
  fetch_iter c start mkq subset fld st w = (Ok (b, st'), w') ->
  let q := mkq (ls_date_start st) in
  let page := respond (client c) (w_calls w) q in
  let w1 := after_request w (latency (client c) (w_calls w)) (EvReq q (length page)) in
  let cols := col_union (ls_cols st) (cols_of page) in
  td_seconds (w_now w - start) <= extract_timeout_time c /\
  ((page = [] /\ b = false /\ st' = st /\ w' = w1) \/
   (page <> [] /\
    (subset_check subset cols = Ok tt /\ ls_cols st' = cols) /\
    (exists cursor, py_lookup fld (last page []) = Some cursor /\ ls_date_start st' = Some cursor) /\
    ls_acc st' = fst (split_dups subset [] (ls_acc st ++ to_frame page)) /\
    b = negb (df_equals (cols_of page) (to_frame page) cols
                (snd (split_dups subset [] (ls_acc st ++ to_frame page)))) /\
    ((S (ls_itr st) <> 495%nat /\ ls_itr st' = S (ls_itr st) /\ w' = w1) \/
     (S (ls_itr st) = 495%nat /\ ls_itr st' = 0%nat /\ w' = after_sleep w1 60)))).
Proof.
  intro H. cbv zeta. unfold_m.
  destruct (td_seconds (w_now w - start) >? extract_timeout_time c) eqn:Ed;
    [discriminate|].
  split; [rewrite Z.gtb_ltb in Ed; apply Z.ltb_ge in Ed; lia|].
  destruct (respond (client c) (w_calls w) (mkq (ls_date_start st))) as [|r rs] eqn:Ep.
  - left. inversion H; subst. repeat split; reflexivity.
  - right.
    destruct (subset_check subset (col_union (ls_cols st) (cols_of (r :: rs)))) as [[]|e] eqn:Esc;
      [|discriminate].
    destruct (split_dups subset [] (ls_acc st ++ to_frame (r :: rs))) as [kept dropped] eqn:Es.
    destruct (py_lookup fld (last (r :: rs) [])) as [cursor|] eqn:Ec; [|discriminate].
    destruct (Nat.eqb (S (ls_itr st)) 495) eqn:Ei.
    + inversion H; subst. apply Nat.eqb_eq in Ei.
      split; [discriminate|]. split; [auto|]. split; [exists cursor; auto|].
      repeat split; auto; right; repeat split; auto.
    + inversion H; subst. apply Nat.eqb_neq in Ei.
      split; [discriminate|]. split; [auto|]. split; [exists cursor; auto|].
      repeat split; auto; left; repeat split; auto.
Qed.

Lemma fetch_iter_calls c start mkq subset fld st w b st' w' :
  fetch_iter c start mkq subset fld st w = (Ok (b, st'), w') ->
  w_calls w' = S (w_calls w).
Proof.
  intro H. apply fetch_iter_ok in H as [_ [[_ [_ [_ ->]]]|[_ [_ [_ [_ [_ [[_ [_ ->]]|[_ [_ ->]]]]]]]]]];
    reflexivity.
Qed.

Lemma fetch_while_calls c start mkq subset fld fuel st w st' w' :
  fetch_while c start mkq subset fld fuel st w = (Ok st', w') ->
  (S (w_calls w) <= w_calls w')%nat.
Proof.
  revert st w; induction fuel as [|fuel IH]; intros st w H; simpl in H.
  - discriminate.
  - unfold bind at 1 in H.
    destruct (fetch_iter c start mkq subset fld st w) as [[[b st1]|e] w1] eqn:E;
      [|discriminate].
    apply fetch_iter_calls in E.
    destruct b.
    + apply IH in H. lia.
    + unfold ret in H. inversion H; subst. lia.
Qed.

Lemma rows_with_key_unique subset k rows :
  NoDup (row_keys subset rows) -> In k (row_keys subset rows) ->
  length (rows_with_key subset k rows) = 1%nat.
Proof.
  induction rows as [|y ys IH]; intros Hnd Hin; [contradiction|].
  unfold row_keys in *; simpl in *. inversion Hnd as [|? ? Hny Hnd']; subst.
  unfold rows_with_key; simpl.
  destruct (key_eqb (key_of subset (snd y)) k) eqn:E.
  - apply key_eqb_eq in E; subst. simpl. f_equal.
    destruct (filter (fun x => key_eqb (key_of subset (snd x)) (key_of subset (snd y))) ys)
      as [|z zs] eqn:Ef; [reflexivity|].
    exfalso. assert (Hz : In z (z :: zs)) by (left; reflexivity).
    rewrite <- Ef in Hz. apply filter_In in Hz as [Hz He].
    apply key_eqb_eq in He. apply Hny. rewrite <- He.
    apply (in_map (fun x => key_of subset (snd x))). exact Hz.
  - destruct Hin as [He|Hin].
    + rewrite He, (proj2 (key_eqb_eq k k) eq_refl) in E. discriminate.
    + apply IH; assumption.
Qed.

Lemma subseq_refl {A} (l : list A) : subseq l l.
Proof. induction l; constructor; auto. Qed.

Lemma subseq_trans {A} (l1 l2 l3 : list A) : subseq l1 l2 -> subseq l2 l3 -> subseq l1 l3.
Proof.
  intros H12 H23; revert l1 H12; induction H23; intros l0 H.
  - exact H.
  - inversion H; subst; constructor; auto.
  - constructor; auto.
Qed.

Lemma subseq_filter {A} (f : A -> bool) l : subseq (filter f l) l.
Proof. induction l as [|x l IH]; simpl; [constructor|destruct (f x); constructor; auto]. Qed.

Lemma filter_isin_subseq cols col vals df df' :
  filter_isin cols col vals df = Ok df' -> subseq df' df.
Proof.
  unfold filter_isin; destruct (df_has_col col cols); intro H; inversion H; subst.
  apply subseq_filter.
Qed.

Lemma filter_eq_subseq cols col v df df' :
  filter_eq cols col v df = Ok df' -> subseq df' df.
Proof.
  unfold filter_eq; destruct (df_has_col col cols); intro H; inversion H; subst.
  apply subseq_filter.
Qed.

Lemma deadline_passes t x : td_seconds x <= t -> (td_seconds x >? t) = false.
Proof. intro H. rewrite Z.gtb_ltb. apply Z.ltb_ge. exact H. Qed.

Lemma row_keys_app subset a b : row_keys subset (a ++ b) = row_keys subset a ++ row_keys subset b.
Proof. unfold row_keys. apply map_app. Qed.

(** ** Claims *)

(** C7: after the deduplication step of an iteration (of either loop: the
    subset is [id] for pages and [created_at, id, page_id, variant_id] for
    leads), the accumulated frame has at most one row per key; the rows
    accumulated before are kept in place, with the new rows appended in
    page order, each of them the first row of the page with its key, a key
    the frame did not have; and every record of the frame before or of the
    raw page just fetched (a boundary record repeated by two consecutive
    calls included) has exactly one row with its key. *)
Theorem fetch_iter_keeps_first_seen c start mkq subset fld st w b st' w' :
  NoDup (row_keys subset (ls_acc st)) ->
  fetch_iter c start mkq subset fld st w = (Ok (b, st'), w') ->
  NoDup (row_keys subset (ls_acc st')) /\
  (exists tail, ls_acc st' = ls_acc st ++ tail /\
     subseq tail (to_frame (respond (client c) (w_calls w) (mkq (ls_date_start st)))) /\
     (forall x, In x tail -> exists pre post,
        to_frame (respond (client c) (w_calls w) (mkq (ls_date_start st))) = pre ++ x :: post /\
        ~ In (key_of subset (snd x)) (row_keys subset (ls_acc st ++ pre)))) /\
  (forall x, In x (ls_acc st ++ to_frame (respond (client c) (w_calls w) (mkq (ls_date_start st)))) ->
     length (rows_with_key subset (key_of subset (snd x)) (ls_acc st')) = 1%nat).
Proof.
  intros Hnd H. apply fetch_iter_ok in H as [_ Hcase].
  set (page := respond (client c) (w_calls w) (mkq (ls_date_start st))) in *.
  destruct Hcase as [[Hp [_ [-> _]]]|[_ [_ [_ [Hacc _]]]]].
  - rewrite Hp. simpl. rewrite app_nil_r.
    split; [exact Hnd|]. split.
    + exists []; rewrite app_nil_r. split; [reflexivity|]. split; [constructor|intros x []].
    + intros x Hx. apply rows_with_key_unique; auto.
      apply (in_map (fun y => key_of subset (snd y))). exact Hx.
  - destruct (split_dups_kept subset [] (ls_acc st ++ to_frame page)) as [K1 [_ [K3 _]]].
    rewrite <- Hacc in K1, K3.
    split; [exact K1|]. split.
    + rewrite split_dups_prefix in Hacc; [|exact Hnd|intros x _ Hx; contradiction].
      pose proof (split_dups_first subset (rev (row_keys subset (ls_acc st)) ++ []) (to_frame page))
        as Hfirst.
      destruct (split_dups_kept subset (rev (row_keys subset (ls_acc st)) ++ []) (to_frame page))
        as [_ [_ [_ K4]]].
      destruct (split_dups subset (rev (row_keys subset (ls_acc st)) ++ []) (to_frame page))
        as [tail dropped] eqn:Es.
      exists tail. split; [exact Hacc|]. split; [exact K4|].
      intros x Hx. destruct (Hfirst x Hx) as [pre [post [Hpg [Hs Hpre]]]].
      exists pre, post. split; [exact Hpg|].
      rewrite row_keys_app. intro Hin. apply in_app_or in Hin as [Hin|Hin]; [|exact (Hpre Hin)].
      apply Hs. rewrite app_nil_r. apply (in_rev (row_keys subset (ls_acc st))). exact Hin.
    + intros x Hx. apply rows_with_key_unique; [exact K1|].
      destruct (K3 x Hx) as [[]|Hk]. exact Hk.
Qed.

(** C9: in an iteration that fetched a non-empty page, the cursor
    [date_start] becomes the creation date of the last record of the raw
    page ([createdAt] in [bulk_get_pages], [created_at] in [bulk_get_leads]),
    not of the deduplicated frame. *)
Theorem cursor_is_last_raw_created_at :
  (forall c start de st w b st' w',
     respond (client c) (w_calls w) (QPages (ls_date_start st) de) <> [] ->
     fetch_iter c start (fun ds => QPages ds de) page_subset "createdAt" st w = (Ok (b, st'), w') ->
     ls_date_start st' =
       py_lookup "createdAt" (last (respond (client c) (w_calls w) (QPages (ls_date_start st) de)) [])) /\
  (forall c start pid de st w b st' w',
     respond (client c) (w_calls w) (QLeads pid (ls_date_start st) de) <> [] ->
     fetch_iter c start (fun ds => QLeads pid ds de) lead_subset "created_at" st w = (Ok (b, st'), w') ->
     ls_date_start st' =
       py_lookup "created_at" (last (respond (client c) (w_calls w) (QLeads pid (ls_date_start st) de)) [])).
Proof.
  split; intros until w'; intros Hne H;
    apply fetch_iter_ok in H as [_ [[Hp _]|[_ [_ [[cur [Hc Hd]] _]]]]];
    try contradiction; rewrite Hd, Hc; reflexivity.
Qed.

Lemma pages_finish_subseq cols acc dl pl stt l :
  pages_finish cols acc dl pl stt = Ok l ->
  subseq l (map (rename_field "id" "page_id") acc).
Proof.
  unfold pages_finish, rbind.
  set (cols0 := map (rename_label "id" "page_id") cols).
  set (df0 := map (rename_field "id" "page_id") acc).
  intro H.
  destruct (match dl with
            | Some l0 => if list_truthy dl then filter_isin cols0 "domain" l0 df0 else Ok df0
            | None => Ok df0 end) as [df1|e] eqn:E1; [|discriminate].
  assert (S1 : subseq df1 df0).
  { destruct dl as [l0|]; [destruct (list_truthy (Some l0))|];
      [apply filter_isin_subseq in E1; exact E1| |]; inversion E1; apply subseq_refl. }
  destruct (match pl with
            | Some l0 => if list_truthy pl then filter_isin cols0 "page_id" l0 df1 else Ok df1
            | None => Ok df1 end) as [df2|e] eqn:E2; [|discriminate].
  assert (S2 : subseq df2 df1).
  { destruct pl as [l0|]; [destruct (list_truthy (Some l0))|];
      [apply filter_isin_subseq in E2; exact E2| |]; inversion E2; apply subseq_refl. }
  assert (S3 : subseq l df2).
  { destruct stt as [s|]; [destruct (str_truthy (Some s))|];
      [apply filter_eq_subseq in H; exact H| |]; inversion H; apply subseq_refl. }
  eapply subseq_trans; [exact S3|]. eapply subseq_trans; [exact S2|exact S1].
Qed.

Lemma bulk_get_pages_eq fuel c ds de dl pl stt w :
  bulk_get_pages fuel c ds de dl pl stt w =
  match pages_loop c (w_now w) de fuel (init_state ds [] 0) w with
  | (Ok st, w1) => (pages_finish (ls_cols st) (map snd (ls_acc st)) dl pl stt, w1)
  | (Err e, w1) => (Err e, w1)
  end.
Proof.
  unfold bulk_get_pages, bulk_get_pages_frame, bind, now, lift, ret, raise.
  destruct (pages_loop c (w_now w) de fuel (init_state ds [] 0) w) as [[st|e] w1]; [|reflexivity].
  destruct (pages_finish (ls_cols st) (map snd (ls_acc st)) dl pl stt); reflexivity.
Qed.

Lemma bulk_get_pages_loop_split fuel c ds de dl pl stt w l w' :
  bulk_get_pages fuel c ds de dl pl stt w = (Ok l, w') ->
  exists st, pages_loop c (w_now w) de fuel (init_state ds [] 0) w = (Ok st, w') /\
    subseq l (map (rename_field "id" "page_id") (map snd (ls_acc st))).
Proof.
  rewrite bulk_get_pages_eq. intro H.
  destruct (pages_loop c (w_now w) de fuel (init_state ds [] 0) w) as [[st|e] w1] eqn:E;
    [|discriminate].
  exists st. destruct (pages_finish (ls_cols st) (map snd (ls_acc st)) dl pl stt) as [l'|e] eqn:Ef;
    inversion H; subst.
  split; [reflexivity|]. exact (pages_finish_subseq _ _ _ _ _ _ Ef).
Qed.

(** C10: the list returned by [bulk_get_pages] is the deduplicated frame of
    its loop with [id] renamed to [page_id] in every record, from which the
    domain, page id and state filters only remove records, keeping the
    first-seen order. *)
Theorem pages_result_is_filtered_renamed fuel c ds de dl pl stt w l w' :
  bulk_get_pages fuel c ds de dl pl stt w = (Ok l, w') ->
  exists st, pages_loop c (w_now w) de fuel (init_state ds [] 0) w = (Ok st, w') /\
    subseq l (map (rename_field "id" "page_id") (map snd (ls_acc st))).
Proof.
  exact (bulk_get_pages_loop_split fuel c ds de dl pl stt w l w').
Qed.

(** C1 (as amended): the loop has no record-count test, so a non-empty first
    page, of any size, never ends it: whenever [bulk_get_pages] returns a
    list after a first call that returned records, it has made at least two
    requests. *)
Theorem pages_nonempty_first_page_fetches_again fuel c ds de dl pl stt w l w' :
  respond (client c) (w_calls w) (QPages ds de) <> [] ->
  bulk_get_pages fuel c ds de dl pl stt w = (Ok l, w') ->
  (w_calls w + 2 <= w_calls w')%nat.
Proof.
  intros Hne H.
  apply bulk_get_pages_loop_split in H as [st [H _]].
  unfold pages_loop in H. destruct fuel as [|fuel]; [discriminate|].
  simpl in H. unfold bind at 1 in H.
  destruct (fetch_iter c (w_now w) (fun ds0 => QPages ds0 de) page_subset "createdAt"
              (init_state ds [] 0) w) as [[[b st1]|e] w1] eqn:E; [|discriminate].
  assert (Hc := fetch_iter_calls _ _ _ _ _ _ _ _ _ _ E).
  apply fetch_iter_ok in E as [_ [[Hp _]|[_ [_ [_ [_ [Hb _]]]]]]]; [contradiction|].
  simpl in Hb.
  destruct (respond (client c) (w_calls w) (QPages ds de)) as [|r rs] eqn:Er;
    [contradiction|].
  assert (Hb' : b = true).
  { rewrite Hb. apply negb_true_iff.
    match goal with |- df_equals ?ca ?a ?cb ?d = false =>
      destruct (df_equals ca a cb d) eqn:Eq; [|reflexivity] end.
    exfalso. apply df_equals_length in Eq.
    pose proof (split_dups_length page_subset [] (to_frame (r :: rs))) as Hl.
    unfold to_frame in *; simpl in Eq, Hl |- *.
    destruct (split_dups page_subset _ (label_from 1 rs)) as [k d].
    simpl in *. lia. }
  rewrite Hb' in H. apply fetch_while_calls in H. lia.
Qed.

Lemma key_mem_self k ks : key_mem k (k :: ks) = true.
Proof. apply key_mem_In; left; reflexivity. Qed.

Lemma fetch_iter_eq c start mkq subset fld st w :
  fetch_iter c start mkq subset fld st w =
  if td_seconds (w_now w - start) >? extract_timeout_time c then (Err RecursionError, w) else
  let q := mkq (ls_date_start st) in
  let page := respond (client c) (w_calls w) q in
  let w1 := after_request w (latency (client c) (w_calls w)) (EvReq q (length page)) in
  match page with
  | [] => (Ok (false, st), w1)
  | _ :: _ =>
      let cols := col_union (ls_cols st) (cols_of page) in
      match subset_check subset cols with
      | Err e => (Err e, w1)
      | Ok _ =>
      let '(kept, dropped) := split_dups subset [] (ls_acc st ++ to_frame page) in
      match py_lookup fld (last page []) with
      | None => (Err KeyError, w1)
      | Some cursor =>
          let cont := negb (df_equals (cols_of page) (to_frame page) cols dropped) in
          if Nat.eqb (S (ls_itr st)) 495
          then (Ok (cont, {| ls_date_start := Some cursor; ls_acc := kept; ls_cols := cols;
                             ls_itr := 0 |}),
                after_sleep w1 60)
          else (Ok (cont, {| ls_date_start := Some cursor; ls_acc := kept; ls_cols := cols;
                             ls_itr := S (ls_itr st) |}),
                w1)
      end
      end
  end.
Proof.
  unfold_m. destruct (td_seconds (w_now w - start) >? extract_timeout_time c); [reflexivity|].
  destruct (respond (client c) (w_calls w) (mkq (ls_date_start st))); [reflexivity|].
  destruct (subset_check subset (col_union (ls_cols st) (cols_of (r :: l)))) as [[]|e];
    [|reflexivity].
  destruct (split_dups subset [] (ls_acc st ++ to_frame (r :: l))).
  destruct (py_lookup fld (last (r :: l) [])); [|reflexivity].
  destruct (Nat.eqb (S (ls_itr st)) 495); reflexivity.
Qed.

Lemma cols_of_single_id r id : py_lookup "id" r = Some id -> In "id" (cols_of [r]).
Proof.
  intro H. apply cols_of_in. exists r. split; [left; reflexivity|].
  clear -H. induction r as [|[k v] r IH]; cbn [py_lookup map fst] in *; [discriminate|].
  destruct (String.eqb_spec "id" k) as [->|_]; [left; reflexivity|right; exact (IH H)].
Qed.

(** C6: a client that answers every request with the same one-record page
    stops the loop at the second request, and the result holds that one
    record (under [page_id]).  The record has an [id], the column the
    duplicate test reads, and a [createdAt]; the second call must come in
    before the runtime limit. *)
Theorem pages_constant_single_record_stops fuel c r id created ds de w :
  (2 <= fuel)%nat ->
  py_lookup "id" r = Some id ->
  py_lookup "createdAt" r = Some created ->
  (forall k q, respond (client c) k q = [r]) ->
  0 <= extract_timeout_time c ->
  td_seconds (latency (client c) (w_calls w)) <= extract_timeout_time c ->
  exists w', bulk_get_pages fuel c ds de None None None w
             = (Ok [rename_field "id" "page_id" r], w')
          /\ w_calls w' = (w_calls w + 2)%nat.
Proof.
  intros Hf Hid Hc Hr Ht Hl.
  destruct fuel as [|[|fuel]]; [lia|lia|].
  assert (Hu1 : col_union (ls_cols (init_state ds [] 0)) (cols_of [r]) = cols_of [r]).
  { cbn [init_state ls_cols map]. apply col_union_nil_l, cols_of_nodup. }
  assert (Hu2 : col_union (cols_of [r]) (cols_of [r]) = cols_of [r]) by apply col_union_self.
  assert (Hsc : subset_check page_subset (cols_of [r]) = Ok tt).
  { apply subset_check_in. intros x [<-|[]]. exact (cols_of_single_id r id Hid). }
  rewrite bulk_get_pages_eq.
  unfold pages_loop. cbn [fetch_while].
  unfold bind at 1. rewrite fetch_iter_eq.
  rewrite Z.sub_diag, (deadline_passes _ 0) by (change (td_seconds 0) with 0; lia).
  cbv zeta. rewrite Hr. rewrite Hu1, Hsc.
  cbn [init_state ls_acc ls_date_start ls_itr last app to_frame label_from split_dups key_mem existsb].
  rewrite Hc.
  match goal with |- context [df_equals ?a ?b ?c []] =>
    replace (df_equals a b c []) with false by (unfold df_equals; cbn [rows_equal]; symmetry; apply andb_false_r) end.
  cbn [negb Nat.eqb]. unfold bind at 1. rewrite fetch_iter_eq.
  cbn [after_request w_now w_calls ls_date_start ls_acc ls_itr ls_cols].
  replace (w_now w + latency (client c) (w_calls w) - w_now w)
    with (latency (client c) (w_calls w)) by lia.
  rewrite (deadline_passes _ _ Hl). cbv zeta. rewrite Hr. rewrite Hu2, Hsc.
  cbn [last app to_frame label_from split_dups].
  rewrite key_mem_self. rewrite Hc.
  cbn [key_mem existsb fst snd].
  unfold df_equals. rewrite labels_eqb_refl, rows_equal_refl.
  cbn [andb negb Nat.eqb ret lift pages_finish rbind list_truthy str_truthy map snd].
  eexists. split; [reflexivity|]. cbn [after_request w_calls]. lia.
Qed.

(** C2 (code bug): with a page id filter, [process_bulk_leads] hands
    [bulk_get_leads] a Python list, which is used as [page_ids_all] without
    a page lookup, but the next line reads [page_ids_all.empty], an attribute
    of pandas series that lists lack: the extraction stops with
    [AttributeError] before any lead request. *)
Theorem leads_page_id_filter_raises_attribute_error strptime fuel c s w :
  bulk_extract strptime fuel c "leads" (PDict [("page_id", PStr s)]) w = (Err AttributeError, w).
Proof. reflexivity. Qed.

Lemma pages_loop_first_empty c start de fuel ds w :
  (1 <= fuel)%nat ->
  td_seconds (w_now w - start) <= extract_timeout_time c ->
  respond (client c) (w_calls w) (QPages ds de) = [] ->
  pages_loop c start de fuel (init_state ds [] 0) w
  = (Ok (init_state ds [] 0),
     after_request w (latency (client c) (w_calls w)) (EvReq (QPages ds de) 0)).
Proof.
  intros Hf Ht Hr. destruct fuel as [|fuel]; [lia|].
  unfold pages_loop; cbn [fetch_while]. unfold bind at 1.
  rewrite fetch_iter_eq, (deadline_passes _ _ Ht). cbn [ls_date_start init_state].
  rewrite Hr. reflexivity.
Qed.

Lemma bulk_get_pages_frame_eq fuel c ds de dl pl stt w :
  bulk_get_pages_frame fuel c ds de dl pl stt w =
  match pages_loop c (w_now w) de fuel (init_state ds [] 0) w with
  | (Ok st, w1) =>
      match pages_finish (ls_cols st) (map snd (ls_acc st)) dl pl stt with
      | Ok rows => (Ok (map (rename_label "id" "page_id") (ls_cols st), rows), w1)
      | Err e => (Err e, w1)
      end
  | (Err e, w1) => (Err e, w1)
  end.
Proof.
  unfold bulk_get_pages_frame, bind, now, lift, ret, raise.
  destruct (pages_loop c (w_now w) de fuel (init_state ds [] 0) w) as [[st|e] w1]; [|reflexivity].
  destruct (pages_finish (ls_cols st) (map snd (ls_acc st)) dl pl stt); reflexivity.
Qed.

(** C3 (code bug): when the page lookup of [bulk_get_leads] returns no
    page, [bulk_get_pages] returns [[]], and [pd.DataFrame([])['page_id']]
    raises [KeyError] before the [page_ids_all.empty] test meant to return
    an empty list: the extraction fails after the one lookup request, with no
    lead request made. *)
Theorem leads_no_pages_raises_key_error fuel c ds de lids w :
  (1 <= fuel)%nat ->
  0 <= extract_timeout_time c ->
  respond (client c) (w_calls w) (QPages None de) = [] ->
  exists w', bulk_get_leads fuel c ds de lids None w = (Err KeyError, w')
          /\ w_log w' = w_log w ++ [EvReq (QPages None de) 0].
Proof.
  intros Hf Ht Hr.
  unfold bulk_get_leads, now, bind at 1; cbn beta iota.
  unfold bind at 1. unfold bind at 1. rewrite bulk_get_pages_frame_eq.
  rewrite pages_loop_first_empty; auto.
  - eexists; split; reflexivity.
  - rewrite Z.sub_diag. change (td_seconds 0) with 0. lia.
Qed.

(** ** The rate counter *)

Lemma gov_run_app cnt l1 l2 :
  gov_run cnt (l1 ++ l2) = match gov_run cnt l1 with Some k => gov_run k l2 | None => None end.
Proof.
  revert cnt; induction l1 as [|e l1 IH]; intro cnt; simpl; [reflexivity|].
  destruct (gov_step cnt e); auto.
Qed.

Lemma leads_iter_gov c start pid de st w b st' w' :
  (ls_itr st < 495)%nat ->
  fetch_iter c start (fun ds => QLeads pid ds de) lead_subset "created_at" st w = (Ok (b, st'), w') ->
  exists L, w_log w' = w_log w ++ L /\ gov_run (ls_itr st) L = Some (ls_itr st')
            /\ (ls_itr st' < 495)%nat.
Proof.
  intros Hi H. apply fetch_iter_ok in H as [_ Hcase].
  destruct Hcase as [[Hp [_ [-> ->]]]|[Hne [_ [_ [_ [_ Hb]]]]]].
  - eexists; split; [reflexivity|]. rewrite Hp. simpl.
    destruct (Nat.ltb_spec (ls_itr st) 495); [|lia]. split; auto.
  - destruct (respond (client c) (w_calls w) (QLeads pid (ls_date_start st) de)) as [|r rs] eqn:Er;
      [contradiction|].
    destruct Hb as [[Hn [Hs ->]]|[Hn [Hs ->]]].
    + eexists; split; [reflexivity|]. simpl.
      destruct (Nat.ltb_spec (ls_itr st) 495); [|lia]. rewrite Hs. split; auto. lia.
    + eexists; split; [cbn [after_sleep after_request w_log]; rewrite <- app_assoc; reflexivity|].
      simpl. destruct (Nat.ltb_spec (ls_itr st) 495); [|lia]. rewrite Hn. simpl.
      rewrite Hs. split; auto. lia.
Qed.

Lemma leads_loop_gov c start pid de fuel st w st' w' :
  (ls_itr st < 495)%nat ->
  leads_loop c start pid de fuel st w = (Ok st', w') ->
  exists L, w_log w' = w_log w ++ L /\ gov_run (ls_itr st) L = Some (ls_itr st')
            /\ (ls_itr st' < 495)%nat.
Proof.
  unfold leads_loop. revert st w; induction fuel as [|fuel IH]; intros st w Hi H;
    cbn [fetch_while] in H; [discriminate|].
  unfold bind at 1 in H.
  destruct (fetch_iter c start (fun ds => QLeads pid ds de) lead_subset "created_at" st w)
    as [[[b st1]|e] w1] eqn:E; [|discriminate].
  destruct (leads_iter_gov _ _ _ _ _ _ _ _ _ Hi E) as [L1 [HL1 [Hg1 Hi1]]].
  destruct b.
  - destruct (IH st1 w1 Hi1 H) as [L2 [HL2 [Hg2 Hi2]]].
    exists (L1 ++ L2). rewrite HL2, HL1, app_assoc. split; [reflexivity|].
    rewrite gov_run_app, Hg1. auto.
  - unfold ret in H. inversion H; subst. exists L1. auto.
Qed.

Lemma leads_for_gov fuel c start og de ids st w st' w' :
  (ls_itr st < 495)%nat ->
  leads_for fuel c start og de ids st w = (Ok st', w') ->
  exists L, w_log w' = w_log w ++ L /\ gov_run (ls_itr st) L = Some (ls_itr st')
            /\ (ls_itr st' < 495)%nat.
Proof.
  revert st w; induction ids as [|pid ids IH]; intros st w Hi H; simpl in H.
  - unfold ret in H. inversion H; subst. exists []. rewrite app_nil_r. auto.
  - unfold bind in H.
    destruct (leads_loop c start pid de fuel (reset_cursor og st) w) as [[st1|e] w1] eqn:E;
      [|discriminate].
    destruct (leads_loop_gov _ _ _ _ _ (reset_cursor og st) _ _ _ Hi E) as [L1 [HL1 [Hg1 Hi1]]].
    destruct (IH _ _ Hi1 H) as [L2 [HL2 [Hg2 Hi2]]].
    exists (L1 ++ L2). rewrite HL2, HL1, app_assoc. split; [reflexivity|].
    rewrite gov_run_app. cbn [reset_cursor ls_itr] in Hg1. rewrite Hg1. auto.
Qed.

Lemma pages_loop_lookup_events c start de fuel st w st' w' :
  pages_loop c start de fuel st w = (Ok st', w') ->
  exists L, w_log w' = w_log w ++ L /\ Forall lookup_event L.
Proof.
  unfold pages_loop. revert st w; induction fuel as [|fuel IH]; intros st w H;
    cbn [fetch_while] in H; [discriminate|].
  unfold bind at 1 in H.
  destruct (fetch_iter c start (fun ds => QPages ds de) page_subset "createdAt" st w)
    as [[[b st1]|e] w1] eqn:E; [|discriminate].
  assert (H1 : exists L1, w_log w1 = w_log w ++ L1 /\ Forall lookup_event L1).
  { apply fetch_iter_ok in E as [_ [[_ [_ [_ ->]]]|[_ [_ [_ [_ [_ [[_ [_ ->]]|[_ [_ ->]]]]]]]]]].
    - eexists; split; [reflexivity|]. repeat constructor.
    - eexists; split; [reflexivity|]. repeat constructor.
    - eexists; split; [cbn [after_sleep after_request w_log]; rewrite <- app_assoc; reflexivity|].
      repeat constructor. }
  destruct H1 as [L1 [HL1 HF1]].
  destruct b.
  - destruct (IH st1 w1 H) as [L2 [HL2 HF2]].
    exists (L1 ++ L2). rewrite HL2, HL1, app_assoc. split; [reflexivity|].
    apply Forall_app; auto.
  - unfold ret in H. inversion H; subst. eauto.
Qed.

Lemma bulk_get_pages_lookup_events fuel c ds de dl pl stt w pages w1 :
  bulk_get_pages fuel c ds de dl pl stt w = (Ok pages, w1) ->
  exists L1, w_log w1 = w_log w ++ L1 /\ Forall lookup_event L1.
Proof.
  intro Hp. apply bulk_get_pages_loop_split in Hp as [st [Hp _]].
  apply pages_loop_lookup_events in Hp. exact Hp.
Qed.

Lemma bulk_get_pages_of_frame fuel c ds de dl pl stt w fr w1 :
  bulk_get_pages_frame fuel c ds de dl pl stt w = (Ok fr, w1) ->
  bulk_get_pages fuel c ds de dl pl stt w = (Ok (snd fr), w1).
Proof. intro H. unfold bulk_get_pages, bind. rewrite H. reflexivity. Qed.

Lemma bulk_get_leads_ok_inv fuel c ds de lids pids w l w' :
  bulk_get_leads fuel c ds de lids pids w = (Ok l, w') ->
  exists pages w1 st,
    bulk_get_pages fuel c None de None None None w = (Ok pages, w1) /\
    leads_for fuel c (w_now w) ds de (ids_values (IdsSeries (map (py_lookup "page_id") pages)))
      (init_state ds [] 0) w1 = (Ok st, w') /\
    leads_finish (ls_cols st) (map snd (ls_acc st)) lids = Ok l.
Proof.
  intro H. unfold bulk_get_leads, bind at 1, now in H.
  destruct pids as [[|x xs]|].
  2: cbv [bind ret lift attr_empty raise] in H; discriminate.
  all: unfold bind at 1 in H; unfold bind at 1 in H.
  all: destruct (bulk_get_pages_frame fuel c None de None None None w) as [[[cols pages]|e] w1] eqn:Ep;
    try discriminate.
  all: apply bulk_get_pages_of_frame in Ep; cbn [snd] in Ep.
  all: cbv [lift records_column df_column ret raise bind] in H; cbn [fst snd] in H.
  all: (destruct pages as [|p ps]; [discriminate|]).
  all: destruct (df_has_col "page_id" cols) eqn:Ec; cbn beta iota zeta in H; try discriminate.
  all: cbn beta iota zeta delta [attr_empty map] in H.
  all: match type of H with
  | context [leads_for ?a ?b ?c ?d ?e ?f ?g ?h] =>
      destruct (leads_for a b c d e f g h) as [[st|e'] w2] eqn:El
  end; try discriminate.
  all: destruct (leads_finish (ls_cols st) (map snd (ls_acc st)) lids) eqn:Ef; inversion H; subst.
  all: exists (p :: ps), w1, st; auto.
Qed.

Lemma py_in_In k l : py_in k l = true <-> In k l.
Proof.
  unfold py_in; rewrite existsb_exists; split.
  - intros [x [Hx He]]. apply String.eqb_eq in He; subst; exact Hx.
  - intro H; exists k; split; [exact H | apply String.eqb_refl].
Qed.

Lemma rbind_ok {A B} (r : result A) (f : A -> result B) b :
  rbind r f = Ok b -> exists a, r = Ok a /\ f a = Ok b.
Proof. destruct r; simpl; intro H; [eauto|discriminate]. Qed.

Lemma rbind_err {A B} (r : result A) (f : A -> result B) e :
  rbind r f = Err e -> r = Err e \/ exists a, r = Ok a /\ f a = Err e.
Proof. destruct r; simpl; intro H; [eauto|inversion H; auto]. Qed.

Lemma check_keys_ok acc keys u : check_keys acc keys = Ok u -> forall k, In k keys -> In k acc.
Proof.
  induction keys as [|k0 ks IH]; simpl; intros H k Hk; [contradiction|].
  destruct (py_in k0 acc) eqn:E; [|discriminate].
  destruct Hk as [->|Hk]; [apply py_in_In; exact E | exact (IH H k Hk)].
Qed.

Lemma check_keys_err acc keys e : check_keys acc keys = Err e -> validation_error e.
Proof.
  induction keys as [|k0 ks IH]; simpl; intro H; [discriminate|].
  destruct (py_in k0 acc); [exact (IH H)|inversion H; right; reflexivity].
Qed.

Lemma parse_date_ok strptime v p :
  parse_date strptime v = Ok p ->
  match v with
  | None => p = None
  | Some x => exists s n, x = PStr s /\ strptime s = Some n /\ p = Some (String.append s "T00:00:00.000Z", n)
  end.
Proof.
  destruct v as [[s| | | |]|]; simpl; intro H; try discriminate.
  - destruct (strptime s) eqn:E; inversion H; eauto.
  - inversion H; reflexivity.
Qed.

Lemma parse_date_err strptime v e : parse_date strptime v = Err e -> validation_error e.
Proof.
  destruct v as [[s| | | |]|]; simpl; intro H; try (inversion H; right; reflexivity).
  destruct (strptime s); inversion H; right; reflexivity.
Qed.

Lemma process_date_range_err strptime v e :
  process_date_range strptime v = Err e -> validation_error e.
Proof.
  destruct v as [| |dr| |]; simpl; intro H; try (inversion H; left; reflexivity).
  apply rbind_err in H as [H|[?x [_ H]]]; [exact (check_keys_err _ _ _ H)|].
  apply rbind_err in H as [H|[ps [_ H]]]; [exact (parse_date_err _ _ _ H)|].
  apply rbind_err in H as [H|[pe [_ H]]]; [exact (parse_date_err _ _ _ H)|].
  destruct ps as [[s ns]|], pe as [[e' ne]|]; try discriminate.
  destruct (Z.eqb (ne - ns) 0); [inversion H; right; reflexivity|].
  destruct (Z.ltb (ne - ns) 0); inversion H; right; reflexivity.
Qed.

Lemma process_date_range_ok strptime v p :
  process_date_range strptime v = Ok p ->
  exists dr, v = PDict dr /\
    (forall k, In k (map fst dr) -> In k ["date_start"; "date_end"]) /\
    (forall k x, In k ["date_start"; "date_end"] -> py_lookup k dr = Some x ->
       exists s n, x = PStr s /\ strptime s = Some n) /\
    (forall s e ns ne, py_lookup "date_start" dr = Some (PStr s) ->
       py_lookup "date_end" dr = Some (PStr e) -> strptime s = Some ns -> strptime e = Some ne ->
       ns < ne).
Proof.
  destruct v as [| |dr| |]; simpl; intro H; try discriminate.
  exists dr. split; [reflexivity|].
  apply rbind_ok in H as [u [Hk H]].
  apply rbind_ok in H as [ps [Hs H]].
  apply rbind_ok in H as [pe [He H]].
  apply parse_date_ok in Hs. apply parse_date_ok in He.
  split; [exact (check_keys_ok _ _ _ Hk)|]. split.
  - intros k x [<-|[<-|[]]] Hx; rewrite Hx in *.
    + destruct Hs as [s [n [-> [Hn _]]]]; eauto.
    + destruct He as [s [n [-> [Hn _]]]]; eauto.
  - intros s e ns ne Hds Hde Hns Hne. rewrite Hds in Hs; rewrite Hde in He.
    destruct Hs as [s' [n [Es [Hn ->]]]]. destruct He as [e' [m [Ee [Hm ->]]]].
    inversion Es; inversion Ee; subst.
    rewrite Hns in Hn; inversion Hn; subst. rewrite Hne in Hm; inversion Hm; subst.
    destruct (Z.eqb_spec (m - n) 0); [discriminate|].
    destruct (Z.ltb_spec (m - n) 0); [discriminate|]. lia.
Qed.

Lemma opt_filter_ok d key p :
  opt_filter d key = Ok p -> forall v, py_lookup key d = Some v -> str_or_list_value v = true.
Proof.
  unfold opt_filter; intros H v Hv; rewrite Hv in H.
  apply rbind_ok in H as [l [Hl _]]. destruct v; simpl in *; try discriminate; reflexivity.
Qed.

Lemma opt_filter_err d key e : opt_filter d key = Err e -> validation_error e.
Proof.
  unfold opt_filter; destruct (py_lookup key d) as [v|]; intro H; [|discriminate].
  apply rbind_err in H as [H|[?x [_ H]]]; [|discriminate].
  destruct v; simpl in H; inversion H; left; reflexivity.
Qed.

Lemma opt_dates_err strptime d e : opt_dates strptime d = Err e -> validation_error e.
Proof.
  unfold opt_dates; destruct (py_lookup "created_at" d); intro H; [|discriminate].
  exact (process_date_range_err _ _ _ H).
Qed.

Lemma page_filters_checked strptime d a :
  page_filters strptime (PDict d) = Ok a -> filters_checked strptime "pages" d.
Proof.
  unfold page_filters. intro H.
  apply rbind_ok in H as [u [Hk H]].
  apply rbind_ok in H as [[ds de] [Hd H]].
  apply rbind_ok in H as [dl [Hdl H]].
  apply rbind_ok in H as [pl [Hpl H]].
  apply rbind_ok in H as [st [Hst _]].
  split; [exact (check_keys_ok _ _ _ Hk)|]. split.
  - intros v Hv. unfold opt_dates in Hd. rewrite Hv in Hd. eauto.
  - split.
    + intros k v Hk1 Hk2 Hv. simpl in Hk2.
      destruct Hk2 as [<-|[<-|[<-|[<-|[]]]]]; simpl in Hk1; try (intuition discriminate).
      * exact (opt_filter_ok _ _ _ Hdl v Hv).
      * exact (opt_filter_ok _ _ _ Hpl v Hv).
    + intros _ v Hv. rewrite Hv in Hst.
      destruct v as [s| | | |]; try discriminate.
      destruct (py_in s ["published"; "unpublished"]) eqn:E; [|discriminate].
      apply py_in_In in E. destruct E as [<-|[<-|[]]]; auto.
Qed.

Lemma lead_filters_checked strptime d a :
  lead_filters strptime (PDict d) = Ok a -> filters_checked strptime "leads" d.
Proof.
  unfold lead_filters. intro H.
  apply rbind_ok in H as [u [Hk H]].
  apply rbind_ok in H as [[ds de] [Hd H]].
  apply rbind_ok in H as [ll [Hll H]].
  apply rbind_ok in H as [pl [Hpl _]].
  split; [exact (check_keys_ok _ _ _ Hk)|]. split.
  - intros v Hv. unfold opt_dates in Hd. rewrite Hv in Hd. eauto.
  - split.
    + intros k v Hk1 Hk2 Hv. simpl in Hk2.
      destruct Hk2 as [<-|[<-|[<-|[]]]]; simpl in Hk1; try (intuition discriminate).
      * exact (opt_filter_ok _ _ _ Hll v Hv).
      * exact (opt_filter_ok _ _ _ Hpl v Hv).
    + intro Hkind. discriminate.
Qed.

Lemma page_filters_err strptime f e : page_filters strptime f = Err e -> validation_error e.
Proof.
  destruct f as [| |d| |]; cbn [page_filters]; intro H; try (inversion H; left; reflexivity).
  apply rbind_err in H as [H|[?x [_ H]]]; [exact (check_keys_err _ _ _ H)|].
  apply rbind_err in H as [H|[[ds de] [_ H]]]; [exact (opt_dates_err _ _ _ H)|].
  apply rbind_err in H as [H|[?x [_ H]]]; [exact (opt_filter_err _ _ _ H)|].
  apply rbind_err in H as [H|[?x [_ H]]]; [exact (opt_filter_err _ _ _ H)|].
  apply rbind_err in H as [H|[?x [_ H]]]; [|discriminate].
  destruct (py_lookup "state" d) as [[s| | | |]|]; try (inversion H; right; reflexivity).
  destruct (py_in s ["published"; "unpublished"]); inversion H; right; reflexivity.
Qed.

Lemma lead_filters_err strptime f e : lead_filters strptime f = Err e -> validation_error e.
Proof.
  destruct f as [| |d| |]; cbn [lead_filters]; intro H; try (inversion H; left; reflexivity).
  apply rbind_err in H as [H|[?x [_ H]]]; [exact (check_keys_err _ _ _ H)|].
  apply rbind_err in H as [H|[[ds de] [_ H]]]; [exact (opt_dates_err _ _ _ H)|].
  apply rbind_err in H as [H|[?x [_ H]]]; [exact (opt_filter_err _ _ _ H)|].
  apply rbind_err in H as [H|[?x [_ H]]]; [exact (opt_filter_err _ _ _ H)|discriminate].
Qed.

Lemma checked_not_invalid strptime kind d :
  filters_checked strptime kind d -> ~ filters_invalid strptime kind d.
Proof.
  intros [Hk [Hc [Hl Hs]]] Hinv. destruct Hinv as
    [k Hin Hnot | v Hv Hnd | k v Hk1 Hk2 Hv Hf | v Hkind Hv H1 H2
    | dr k Hv Hin Hnot | dr k v Hv Hk1 Hx Hbad | dr s e ns ne Hv Hs' He Hns Hne Hle].
  - exact (Hnot (Hk k Hin)).
  - destruct (Hc v Hv) as [p Hp]. apply process_date_range_ok in Hp as [dr [-> _]].
    exact (Hnd dr eq_refl).
  - rewrite (Hl k v Hk1 Hk2 Hv) in Hf. discriminate.
  - destruct (Hs Hkind v Hv) as [->| ->]; contradiction.
  - destruct (Hc _ Hv) as [p Hp]. apply process_date_range_ok in Hp as [dr' [Hdr [Hk' _]]].
    inversion Hdr; subst. exact (Hnot (Hk' k Hin)).
  - destruct (Hc _ Hv) as [p Hp].
    apply process_date_range_ok in Hp as [dr' [Hdr [_ [Hp' _]]]].
    inversion Hdr; subst. destruct (Hp' k v Hk1 Hx) as [s [n [-> Hn]]].
    rewrite (Hbad s eq_refl) in Hn. discriminate.
  - destruct (Hc _ Hv) as [p Hp].
    apply process_date_range_ok in Hp as [dr' [Hdr [_ [_ Hr]]]].
    inversion Hdr; subst. pose proof (Hr s e ns ne Hs' He Hns Hne). lia.
Qed.

(** C8: for both kinds of extract, a filters mapping with an unrecognised
    key, a value of the wrong type, an invalid publish state, a malformed
    date or a date range whose end is not after its start makes
    [bulk_extract] raise [TypeError] or [ValueError] with the world
    untouched: no request is made.  This holds for any date parser. *)
Theorem invalid_filters_rejected strptime fuel c kind d w :
  In kind ["pages"; "leads"] ->
  filters_invalid strptime kind d ->
  exists e, validation_error e /\ bulk_extract strptime fuel c kind (PDict d) w = (Err e, w).
Proof.
  intros Hkind Hinv. unfold bulk_extract.
  rewrite (proj2 (py_in_In kind ["pages"; "leads"]) Hkind).
  destruct Hkind as [<-|[<-|[]]]; cbn [String.eqb Ascii.eqb Bool.eqb].
  - unfold process_bulk_pages.
    destruct (page_filters strptime (PDict d)) as [a|e] eqn:E.
    + exfalso. exact (checked_not_invalid _ _ _ (page_filters_checked _ _ _ E) Hinv).
    + exists e. split; [exact (page_filters_err _ _ _ E)|reflexivity].
  - unfold process_bulk_leads.
    destruct (lead_filters strptime (PDict d)) as [a|e] eqn:E.
    + exfalso. exact (checked_not_invalid _ _ _ (lead_filters_checked _ _ _ E) Hinv).
    + exists e. split; [exact (lead_filters_err _ _ _ E)|reflexivity].
Qed.

(** ** Concrete runs *)

(** C4: the deadline test reads [.seconds] of the elapsed timedelta, which
    is the seconds part within the last day, not the total. With
    [bulk_extract_timeout = 90000] and a first request that takes 26 hours
    (93600 s), the test sees 7200 s. So the second request is still made and
    [bulk_get_pages] returns normally instead of raising [RecursionError]. *)
Theorem deadline_check_wraps_after_a_day :
  td_seconds (93600 * 1000000) = 7200 /\
  93600 > extract_timeout_time day_conn /\
  bulk_get_pages 10 day_conn None None None None None w0 =
    (Ok [rename_field "id" "page_id" page_a],
     {| w_now := 93600 * 1000000; w_calls := 2;
        w_log := [EvReq (QPages None None) 1;
                  EvReq (QPages (Some "2020-01-01T00:00:00Z") None) 1] |}).
Proof.
  split; [|split]; vm_compute; reflexivity.
Qed.

(** C1, counterexample: a first page of one record (fewer than 1000) does
    not end [bulk_get_pages] after that request. It requests again, gets an
    empty page and returns after two requests. *)
Lemma short_first_page_requests_again :
  (length (respond short_client 0 (QPages None None)) < 1000)%nat /\
  bulk_get_pages 10 (conn_of short_client) None None None None None w0 =
    (Ok [rename_field "id" "page_id" page_a],
     {| w_now := 0; w_calls := 2;
        w_log := [EvReq (QPages None None) 1;
                  EvReq (QPages (Some "2020-01-01T00:00:00Z") None) 0] |}).
Proof.
  split; [simpl; lia | vm_compute; reflexivity].
Qed.

(** C5 (code bug): a lead request that returns no record leaves the loop
    at its [break], before [itr += 1], so it is never counted; and the page
    lookup runs in [bulk_get_pages] with that method's own counter.  With
    500 pages whose lead requests all return no record, one
    [bulk_get_leads] operation makes 502 requests (2 for the lookup, 500 for
    the leads) and takes no pause at all, although more than 495 requests
    were made. *)
Theorem leads_uncounted_requests_no_pause :
  let '(res, w') := bulk_get_leads 10 (conn_of no_leads_client) None None None None w0 in
  res = Ok [] /\ w_calls w' = 502%nat /\ w_now w' = 0 /\
  forallb (fun ev => match ev with EvSleep _ => false | EvReq _ _ => true end) (w_log w') = true.
Proof.
  vm_compute. split; [reflexivity | split; [reflexivity | split; reflexivity]].
Qed.

(** ** Witnesses *)

Lemma fetch_iter_keeps_first_seen_witness :
  NoDup (row_keys page_subset (ls_acc boundary_st1)) /\
  fetch_iter (conn_of boundary_client) 0 (fun ds => QPages ds None) page_subset "createdAt"
    boundary_st1 boundary_w1 = (Ok (false, boundary_st2), boundary_w2) /\
  NoDup (row_keys page_subset (ls_acc boundary_st2)).
Proof.
  assert (Hnd : NoDup (row_keys page_subset (ls_acc boundary_st1))).
  { vm_compute. repeat constructor; simpl; intuition discriminate. }
  assert (He : fetch_iter (conn_of boundary_client) 0 (fun ds => QPages ds None) page_subset
                 "createdAt" boundary_st1 boundary_w1 = (Ok (false, boundary_st2), boundary_w2)).
  { vm_compute. reflexivity. }
  split; [exact Hnd|]. split; [exact He|].
  exact (proj1 (fetch_iter_keeps_first_seen (conn_of boundary_client) 0
    (fun ds => QPages ds None) page_subset "createdAt" boundary_st1 boundary_w1
    false boundary_st2 boundary_w2 Hnd He)).
Defined.

Lemma cursor_is_last_raw_created_at_witness :
  ls_date_start boundary_st2 =
    py_lookup "createdAt" (last (respond (client (conn_of boundary_client)) (w_calls boundary_w1)
                                   (QPages (ls_date_start boundary_st1) None)) []).
Proof.
  apply (proj1 cursor_is_last_raw_created_at (conn_of boundary_client) 0 None
    boundary_st1 boundary_w1 false boundary_st2 boundary_w2).
  - discriminate.
  - vm_compute. reflexivity.
Defined.

Lemma pages_result_is_filtered_renamed_witness :
  exists st, pages_loop (conn_of boundary_client) 0 None 10 (init_state None [] 0) w0
               = (Ok st, boundary_w2) /\
    subseq [rename_field "id" "page_id" page_a]
           (map (rename_field "id" "page_id") (map snd (ls_acc st))).
Proof.
  apply (pages_result_is_filtered_renamed 10 (conn_of boundary_client) None None
    (Some [PStr "a.example.com"]) None None w0 [rename_field "id" "page_id" page_a] boundary_w2).
  vm_compute. reflexivity.
Defined.

Lemma pages_nonempty_first_page_fetches_again_witness :
  (w_calls w0 + 2 <= w_calls boundary_w2)%nat.
Proof.
  apply (pages_nonempty_first_page_fetches_again 10 (conn_of boundary_client) None None
    None None None w0 [rename_field "id" "page_id" page_a; rename_field "id" "page_id" page_b]
    boundary_w2).
  - discriminate.
  - vm_compute. reflexivity.
Defined.

Lemma pages_constant_single_record_stops_witness :
  exists w', bulk_get_pages 2 (conn_of constant_client) None None None None None w0
               = (Ok [rename_field "id" "page_id" page_a], w') /\
    w_calls w' = (w_calls w0 + 2)%nat.
Proof.
  apply (pages_constant_single_record_stops 2 (conn_of constant_client) page_a "pa"
    "2020-01-01T00:00:00Z" None None w0).
  - lia.
  - reflexivity.
  - reflexivity.
  - intros; reflexivity.
  - apply Z.leb_le; vm_compute; reflexivity.
  - apply Z.leb_le; vm_compute; reflexivity.
Defined.

Lemma leads_no_pages_raises_key_error_witness :
  exists w', bulk_get_leads 1 (conn_of (script_client [])) None None None None w0
               = (Err KeyError, w') /\
    w_log w' = w_log w0 ++ [EvReq (QPages None None) 0].
Proof.
  apply (leads_no_pages_raises_key_error 1 (conn_of (script_client [])) None None None w0).
  - lia.
  - apply Z.leb_le; vm_compute; reflexivity.
  - reflexivity.
Defined.

Lemma invalid_filters_rejected_witness :
  (exists e, validation_error e /\
     bulk_extract ymd_strptime 10 (conn_of boundary_client) "pages" (PDict same_day_filters) w0
       = (Err e, w0)) /\
  (exists e, validation_error e /\
     bulk_extract ymd_strptime 10 (conn_of boundary_client) "leads" (PDict inverted_filters) w0
       = (Err e, w0)).
Proof.
  split.
  - apply (invalid_filters_rejected ymd_strptime 10 (conn_of boundary_client) "pages"
      same_day_filters w0).
    + left; reflexivity.
    + apply (inv_range ymd_strptime "pages" same_day_filters
        [("date_start", PStr "2020-01-01"); ("date_end", PStr "2020-01-01")]
        "2020-01-01" "2020-01-01" (days_from_civil 2020 1 1) (days_from_civil 2020 1 1));
        try (vm_compute; reflexivity).
      apply Z.leb_le; vm_compute; reflexivity.
  - apply (invalid_filters_rejected ymd_strptime 10 (conn_of boundary_client) "leads"
      inverted_filters w0).
    + right; left; reflexivity.
    + apply (inv_range ymd_strptime "leads" inverted_filters
        [("date_start", PStr "2020-01-02"); ("date_end", PStr "2020-01-01")]
        "2020-01-02" "2020-01-01" (days_from_civil 2020 1 2) (days_from_civil 2020 1 1));
        try (vm_compute; reflexivity).
      apply Z.leb_le; vm_compute; reflexivity.
Defined.

(** ** Further properties *)

Lemma parse_date_result strptime v p :
  parse_date strptime v = Ok p -> date_result strptime v (option_map fst p) (option_map snd p).
Proof.
  destruct v as [[s| | | |]|]; simpl; intro H; try discriminate.
  - destruct (strptime s) eqn:E; inversion H; subst. simpl. eauto.
  - inversion H; subst; simpl; auto.
Qed.

Lemma date_result_parse strptime v out n :
  date_result strptime v out n ->
  exists p, parse_date strptime v = Ok p /\ out = option_map fst p /\ n = option_map snd p.
Proof.
  destruct v as [[s| | | |]|]; simpl; try contradiction.
  - intros [z [Hz [-> ->]]]. rewrite Hz. eexists; split; [reflexivity|auto].
  - intros [-> ->]. exists None; auto.
Qed.

Lemma check_keys_all acc keys :
  (forall k, In k keys -> In k acc) -> check_keys acc keys = Ok tt.
Proof.
  induction keys as [|k ks IH]; simpl; intro H; [reflexivity|].
  assert (E : py_in k acc = true) by (apply py_in_In; auto). rewrite E. auto.
Qed.

(** [process_date_range] accepts a dict exactly when its keys are among
    [date_start] and [date_end], each date given is a string [strptime]
    parses, and, when both are given, the end is a later day than the start.
    It then returns each given date with [T00:00:00.000Z] appended, and
    [None] for a missing one; a single bound is never compared. *)
Theorem process_date_range_accepts strptime dr ds de :
  process_date_range strptime (PDict dr) = Ok (ds, de) <->
  (forall k, In k (map fst dr) -> In k ["date_start"; "date_end"]) /\
  exists ns ne, date_result strptime (py_lookup "date_start" dr) ds ns /\
                date_result strptime (py_lookup "date_end" dr) de ne /\
                (forall a b, ns = Some a -> ne = Some b -> a < b).
Proof.
  cbn [process_date_range]. split.
  - intro H.
    apply rbind_ok in H as [u [Hk H]].
    apply rbind_ok in H as [ps [Hs H]].
    apply rbind_ok in H as [pe [He H]].
    apply parse_date_result in Hs. apply parse_date_result in He.
    split; [exact (check_keys_ok _ _ _ Hk)|].
    exists (option_map snd ps), (option_map snd pe).
    destruct ps as [[s ns]|], pe as [[e ne]|]; simpl in *.
    + destruct (Z.eqb_spec (ne - ns) 0); [discriminate|].
      destruct (Z.ltb_spec (ne - ns) 0); [discriminate|].
      inversion H; subst. repeat split; auto.
      intros a b Ha Hb. inversion Ha; inversion Hb; subst; lia.
    + inversion H; subst. repeat split; auto. intros a b _ Hb; discriminate.
    + inversion H; subst. repeat split; auto. intros a b Ha _; discriminate.
    + inversion H; subst. repeat split; auto. intros a b Ha _; discriminate.
  - intros [Hk [ns [ne [Hs [He Hlt]]]]].
    apply date_result_parse in Hs as [ps [Hps [-> ->]]].
    apply date_result_parse in He as [pe [Hpe [-> ->]]].
    rewrite (check_keys_all _ _ Hk). simpl. rewrite Hps. simpl. rewrite Hpe. simpl.
    destruct ps as [[s a]|], pe as [[e b]|]; simpl; auto.
    specialize (Hlt a b eq_refl eq_refl).
    destruct (Z.eqb_spec (b - a) 0); [lia|].
    destruct (Z.ltb_spec (b - a) 0); [lia|]. reflexivity.
Qed.

Lemma filter_filter_and {A} (f g : A -> bool) l :
  filter f (filter g l) = filter (fun x => g x && f x) l.
Proof.
  induction l as [|x l IH]; simpl; [reflexivity|].
  destruct (g x); simpl; [destruct (f x); simpl; rewrite IH; reflexivity|exact IH].
Qed.

Lemma filter_ext_eq {A} (f g : A -> bool) l :
  (forall x, f x = g x) -> filter f l = filter g l.
Proof.
  intro H. induction l as [|x l IH]; simpl; [reflexivity|]. rewrite H, IH. reflexivity.
Qed.

Lemma filter_all_true {A} (l : list A) : filter (fun _ => true) l = l.
Proof. induction l as [|x l IH]; simpl; [reflexivity|]. rewrite IH. reflexivity. Qed.

Lemma pages_finish_eq cols acc dl pl stt :
  let cols0 := map (rename_label "id" "page_id") cols in
  let df0 := map (rename_field "id" "page_id") acc in
  pages_finish cols acc dl pl stt =
    if (negb (list_truthy dl) || df_has_col "domain" cols0) &&
       (negb (list_truthy pl) || df_has_col "page_id" cols0) &&
       (negb (str_truthy stt) || df_has_col "state" cols0)
    then Ok (filter (fun r => passes_isin dl "domain" r && passes_isin pl "page_id" r
                              && passes_eq stt "state" r) df0)
    else Err KeyError.
Proof.
  intros cols0 df0. unfold pages_finish. fold cols0 df0.
  cbv [passes_isin passes_eq list_truthy str_truthy].
  destruct dl as [[|x xs]|]; destruct pl as [[|y ys]|]; destruct stt as [s|];
  try destruct (String.eqb s ""); cbn [negb orb andb rbind]; unfold filter_isin, filter_eq;
  destruct (df_has_col "domain" cols0); destruct (df_has_col "page_id" cols0);
  destruct (df_has_col "state" cols0); cbn [rbind orb andb negb]; try reflexivity; f_equal;
  rewrite ?filter_filter_and;
  first [apply filter_ext_eq | rewrite <- (filter_all_true df0) at 1; apply filter_ext_eq];
  intro r; rewrite ?andb_true_r, ?andb_true_l; try reflexivity; rewrite ?andb_assoc; reflexivity.
Qed.

(** The post-hoc filters of [bulk_get_pages] act as one filter over the
    deduplicated frame of its loop with [id] renamed to [page_id].  Whether
    a filter finds its column is decided by the columns of that frame,
    which are those of every record the loop appended to it, the duplicate
    rows it dropped again included (the loop state keeps them in
    [ls_cols]), with [id] renamed to [page_id].  When each non-empty
    filter finds its column, the result is the records, in frame order,
    that pass every filter given (an empty domain or page id list, like a
    missing one, filters nothing); otherwise [KeyError] is raised. *)
Theorem bulk_get_pages_filters fuel c ds de dl pl stt w st w1 :
  pages_loop c (w_now w) de fuel (init_state ds [] 0) w = (Ok st, w1) ->
  let cols0 := map (rename_label "id" "page_id") (ls_cols st) in
  let df0 := map (rename_field "id" "page_id") (map snd (ls_acc st)) in
  bulk_get_pages fuel c ds de dl pl stt w =
    (if (negb (list_truthy dl) || df_has_col "domain" cols0) &&
        (negb (list_truthy pl) || df_has_col "page_id" cols0) &&
        (negb (str_truthy stt) || df_has_col "state" cols0)
     then Ok (filter (fun r => passes_isin dl "domain" r && passes_isin pl "page_id" r
                               && passes_eq stt "state" r) df0)
     else Err KeyError, w1).
Proof.
  intros H cols0 df0. rewrite bulk_get_pages_eq, H.
  rewrite pages_finish_eq. fold cols0 df0.
  destruct (_ && _ && _); reflexivity.
Qed.

(** When the first request of [bulk_get_pages] returns no page, a non-empty
    domain, page id or state filter raises [KeyError] (the empty frame has
    no column), after that one request, instead of returning [[]]. *)
Theorem pages_filter_on_no_pages_raises_key_error fuel c ds de dl pl stt w :
  (1 <= fuel)%nat -> 0 <= extract_timeout_time c ->
  respond (client c) (w_calls w) (QPages ds de) = [] ->
  list_truthy dl || list_truthy pl || str_truthy stt = true ->
  exists w', bulk_get_pages fuel c ds de dl pl stt w = (Err KeyError, w') /\
             w_calls w' = S (w_calls w).
Proof.
  intros Hf Ht Hr Htr.
  assert (Hd : td_seconds (w_now w - w_now w) <= extract_timeout_time c).
  { rewrite Z.sub_diag. unfold td_seconds. rewrite Zmod_0_l. simpl. exact Ht. }
  rewrite bulk_get_pages_eq.
  rewrite (pages_loop_first_empty _ _ _ _ _ _ Hf Hd Hr).
  rewrite pages_finish_eq. cbn [init_state ls_cols ls_acc map cols_of concat col_union
                                add_labels app df_has_col py_in existsb].
  rewrite !orb_false_r.
  destruct (list_truthy dl), (list_truthy pl), (str_truthy stt); try discriminate;
    eexists; split; reflexivity.
Qed.

Lemma check_keys_eq acc keys :
  check_keys acc keys = if forallb (fun k => py_in k acc) keys then Ok tt else Err ValueError.
Proof.
  induction keys as [|k ks IH]; simpl; [reflexivity|]. destruct (py_in k acc); auto.
Qed.

Lemma py_lookup_nodup_in {V} (d : list (string * V)) k v :
  NoDup (map fst d) -> py_lookup k d = Some v <-> In (k, v) d.
Proof.
  induction d as [|[k' v'] d IH]; simpl; intro Hnd; [split; [discriminate|contradiction]|].
  inversion Hnd as [|? ? Hni Hnd']; subst.
  destruct (String.eqb_spec k k') as [->|Hne].
  - split; [intro H; inversion H; auto|].
    intros [H|H]; [inversion H; auto|].
    exfalso; apply Hni. apply (in_map fst) in H. exact H.
  - rewrite (IH Hnd'). split; [auto|]. intros [H|H]; [inversion H; congruence|exact H].
Qed.

Lemma py_lookup_none {V} (d : list (string * V)) k :
  py_lookup k d = None <-> ~ In k (map fst d).
Proof.
  induction d as [|[k' v'] d IH]; simpl; [tauto|].
  destruct (String.eqb_spec k k') as [->|Hne]; [split; [discriminate|tauto]|].
  rewrite IH. intuition.
Qed.

Lemma py_lookup_perm {V} (d d' : list (string * V)) k :
  NoDup (map fst d) -> Permutation d d' -> py_lookup k d = py_lookup k d'.
Proof.
  intros Hnd Hp.
  assert (Hnd' : NoDup (map fst d')) by exact (Permutation_NoDup (Permutation_map fst Hp) Hnd).
  destruct (py_lookup k d) as [v|] eqn:E.
  - apply (py_lookup_nodup_in _ _ _ Hnd) in E. symmetry.
    apply (py_lookup_nodup_in _ _ _ Hnd'). exact (Permutation_in _ Hp E).
  - symmetry. apply py_lookup_none. apply py_lookup_none in E.
    intro H; apply E. exact (Permutation_in _ (Permutation_sym (Permutation_map fst Hp)) H).
Qed.

Lemma forallb_perm {A} (f : A -> bool) l l' :
  Permutation l l' -> forallb f l = forallb f l'.
Proof.
  intro Hp. destruct (forallb f l) eqn:E; symmetry.
  - apply forallb_forall. intros x Hx. rewrite forallb_forall in E.
    apply E. exact (Permutation_in _ (Permutation_sym Hp) Hx).
  - apply not_true_iff_false. intro H. apply not_true_iff_false in E. apply E.
    apply forallb_forall. intros x Hx. rewrite forallb_forall in H.
    apply H. exact (Permutation_in _ Hp Hx).
Qed.

(** [bulk_extract] does not depend on the order of the keys of its filters
    dict: for a dict whose keys are distinct, any reordering gives the same
    outcome, the same error included, and the same requests. *)
Theorem bulk_extract_ignores_filter_order strptime fuel c kind d d' w :
  NoDup (map fst d) -> Permutation d d' ->
  bulk_extract strptime fuel c kind (PDict d) w = bulk_extract strptime fuel c kind (PDict d') w.
Proof.
  intros Hnd Hp.
  assert (Hl : forall V (f : string * PyValue -> V) k, py_lookup k (map (fun kv => (fst kv, f kv)) d)
                 = py_lookup k (map (fun kv => (fst kv, f kv)) d')) by
    (intros; apply py_lookup_perm; [rewrite map_map; simpl; rewrite <- (map_map (fun kv => kv) fst), map_id; exact Hnd
                                   |apply Permutation_map; exact Hp]).
  assert (Hk : forall k, py_lookup k d = py_lookup k d') by
    (intro k; apply py_lookup_perm; assumption).
  assert (Hc : forall acc, check_keys acc (map fst d) = check_keys acc (map fst d')) by
    (intro acc; rewrite !check_keys_eq, (forallb_perm _ _ _ (Permutation_map fst Hp)); reflexivity).
  unfold bulk_extract, process_bulk_pages, process_bulk_leads, page_filters, lead_filters,
    opt_dates, opt_filter.
  rewrite !Hc, !Hk. reflexivity.
Qed.

Lemma subseq_in {A} (l1 l2 : list A) x : subseq l1 l2 -> In x l1 -> In x l2.
Proof.
  intro H; induction H; simpl; [auto| |]; intro Hx; [destruct Hx; auto|right; auto].
Qed.

Lemma subseq_nodup_map {A B} (f : A -> B) l1 l2 :
  subseq l1 l2 -> NoDup (map f l2) -> NoDup (map f l1).
Proof.
  intro H; induction H as [|x l1 l2 H IH|x l1 l2 H IH]; simpl; intro Hnd; auto.
  - inversion Hnd as [|? ? Hni Hnd']; subst. constructor; [|auto].
    intro Hin. apply Hni. apply in_map_iff in Hin as [y [Hy Hyin]].
    rewrite <- Hy. apply in_map. exact (subseq_in _ _ _ H Hyin).
  - inversion Hnd; auto.
Qed.

Lemma label_from_in i rs x : In x (label_from i rs) -> In (snd x) rs.
Proof.
  revert i; induction rs as [|r rs IH]; intros i; simpl; [auto|].
  intros [<-|H]; [left; reflexivity|right; exact (IH _ H)].
Qed.

(** One iteration adds to the frame some rows of the page it fetched. *)
Lemma fetch_iter_grows c start mkq subset fld st w b st' w' :
  NoDup (row_keys subset (ls_acc st)) ->
  fetch_iter c start mkq subset fld st w = (Ok (b, st'), w') ->
  NoDup (row_keys subset (ls_acc st')) /\
  exists tail, ls_acc st' = ls_acc st ++ tail /\
    (forall x, In x tail -> In (snd x) (respond (client c) (w_calls w) (mkq (ls_date_start st)))).
Proof.
  intros Hnd H. apply fetch_iter_ok in H as [_ Hcase].
  set (page := respond (client c) (w_calls w) (mkq (ls_date_start st))) in *.
  destruct Hcase as [[Hp [_ [-> _]]]|[_ [_ [_ [Hacc _]]]]].
  - split; [exact Hnd|]. exists []. rewrite app_nil_r.
    split; [reflexivity|intros x []].
  - destruct (split_dups_kept subset [] (ls_acc st ++ to_frame page)) as [K1 _].
    rewrite <- Hacc in K1. split; [exact K1|].
    rewrite split_dups_prefix in Hacc; [| exact Hnd | intros x _ Hx; contradiction].
    destruct (split_dups_kept subset (rev (row_keys subset (ls_acc st)) ++ []) (to_frame page))
      as [_ [_ [_ K4]]].
    destruct (split_dups subset (rev (row_keys subset (ls_acc st)) ++ []) (to_frame page))
      as [tail dropped] eqn:Es.
    simpl in K4. exists tail. split; [exact Hacc|].
    intros x Hx. exact (label_from_in _ _ _ (subseq_in _ _ _ K4 Hx)).
Qed.

(** A whole [while cont] loop: the frame only grows, and every row it gains
    comes from some response. *)
Lemma fetch_while_grows c start mkq subset fld fuel st w st' w' :
  NoDup (row_keys subset (ls_acc st)) ->
  fetch_while c start mkq subset fld fuel st w = (Ok st', w') ->
  NoDup (row_keys subset (ls_acc st')) /\
  (exists tail, ls_acc st' = ls_acc st ++ tail /\
     forall x, In x tail -> exists k q, In (snd x) (respond (client c) k q)).
Proof.
  revert st w; induction fuel as [|fuel IH]; intros st w Hnd H; simpl in H; [discriminate|].
  unfold bind at 1 in H.
  destruct (fetch_iter c start mkq subset fld st w) as [[[b st1]|e] w1] eqn:E; [|discriminate].
  destruct (fetch_iter_grows _ _ _ _ _ _ _ _ _ _ Hnd E) as [Hnd1 [t1 [Ht1 Hp1]]].
  destruct b.
  - destruct (IH st1 w1 Hnd1 H) as [Hnd2 [t2 [Ht2 Hp2]]].
    split; [exact Hnd2|].
    exists (t1 ++ t2). rewrite Ht2, Ht1, app_assoc. split; [reflexivity|].
    intros x Hx. apply in_app_or in Hx as [Hx|Hx]; [|exact (Hp2 x Hx)].
    exists (w_calls w), (mkq (ls_date_start st)). exact (Hp1 x Hx).
  - unfold ret in H. inversion H; subst. split; [exact Hnd1|].
    exists t1. split; [exact Ht1|]. intros x Hx.
    exists (w_calls w), (mkq (ls_date_start st)). exact (Hp1 x Hx).
Qed.

Lemma leads_for_grows fuel c start og de ids st w st' w' :
  NoDup (row_keys lead_subset (ls_acc st)) ->
  leads_for fuel c start og de ids st w = (Ok st', w') ->
  NoDup (row_keys lead_subset (ls_acc st')) /\
  (exists tail, ls_acc st' = ls_acc st ++ tail /\
     forall x, In x tail -> exists k q, In (snd x) (respond (client c) k q)).
Proof.
  revert st w; induction ids as [|pid ids IH]; intros st w Hnd H; simpl in H.
  - unfold ret in H. inversion H; subst. split; [exact Hnd|].
    exists []. rewrite app_nil_r. split; [reflexivity|intros x []].
  - unfold bind in H.
    destruct (leads_loop c start pid de fuel (reset_cursor og st) w) as [[st1|e] w1] eqn:E;
      [|discriminate].
    destruct (fetch_while_grows c start _ lead_subset "created_at" fuel (reset_cursor og st)
                w st1 w1 Hnd E) as [Hnd1 [t1 [Ht1 Hp1]]].
    destruct (IH _ _ Hnd1 H) as [Hnd2 [t2 [Ht2 Hp2]]].
    cbn [reset_cursor ls_acc] in Ht1.
    split; [exact Hnd2|].
    exists (t1 ++ t2). rewrite Ht2, Ht1, app_assoc. split; [reflexivity|].
    intros x Hx. apply in_app_or in Hx as [Hx|Hx]; [exact (Hp1 x Hx)|exact (Hp2 x Hx)].
Qed.

Lemma py_lookup_rename_new old new r :
  old <> new -> py_lookup new r = None -> py_lookup new (rename_field old new r) = py_lookup old r.
Proof.
  intro Hne. induction r as [|[k v] r IH]; simpl; [reflexivity|].
  destruct (String.eqb_spec new k) as [->|Hk]; [discriminate|]. intro H.
  destruct (String.eqb_spec k old) as [->|Hko]; simpl.
  - rewrite String.eqb_refl, String.eqb_refl. reflexivity.
  - destruct (String.eqb_spec new k) as [Hnk|_]; [congruence|].
    destruct (String.eqb_spec old k) as [Hok|_]; [congruence|]. exact (IH H).
Qed.

Lemma py_lookup_rename_other old new k r :
  k <> old -> k <> new -> py_lookup k (rename_field old new r) = py_lookup k r.
Proof.
  intros H1 H2. induction r as [|[k' v] r IH]; simpl; [reflexivity|].
  destruct (String.eqb_spec k' old) as [->|Hko]; simpl.
  - destruct (String.eqb_spec k new) as [|_]; [congruence|].
    destruct (String.eqb_spec k old) as [|_]; [congruence|]. exact IH.
  - destruct (String.eqb k k'); [reflexivity|exact IH].
Qed.

Lemma pages_loop_grows c start de fuel ds w st w' :
  pages_loop c start de fuel (init_state ds [] 0) w = (Ok st, w') ->
  NoDup (row_keys page_subset (ls_acc st)) /\
  (forall x, In x (ls_acc st) -> exists k q, In (snd x) (respond (client c) k q)).
Proof.
  intro E.
  destruct (fetch_while_grows c start (fun ds0 => QPages ds0 de) page_subset "createdAt" fuel
              (init_state ds [] 0) w st w' (NoDup_nil _) E) as [Hnd [t [Ht Hp]]].
  cbn [init_state ls_acc app] in Ht. subst t.
  split; [exact Hnd|exact Hp].
Qed.

(** The pages returned by [bulk_get_pages] have pairwise distinct
    [page_id]s (at most one lacks it), whatever filters are applied,
    provided the API's page records carry no [page_id] field of their own. *)
Theorem pages_returned_ids_distinct fuel c ds de dl pl stt w l w' :
  (forall k q r, In r (respond (client c) k q) -> py_lookup "page_id" r = None) ->
  bulk_get_pages fuel c ds de dl pl stt w = (Ok l, w') ->
  NoDup (map (py_lookup "page_id") l).
Proof.
  intros Hraw H. apply bulk_get_pages_loop_split in H as [st [E Hs]].
  destruct (pages_loop_grows _ _ _ _ _ _ _ _ E) as [Hnd Hp].
  apply (subseq_nodup_map _ _ _ Hs).
  rewrite !map_map.
  assert (Heq : map (fun x : nat * Record => py_lookup "page_id" (rename_field "id" "page_id" (snd x)))
                  (ls_acc st) = map (fun x : nat * Record => py_lookup "id" (snd x)) (ls_acc st)).
  { apply map_ext_in. intros x Hx. destruct (Hp x Hx) as [k [q Hin]].
    apply py_lookup_rename_new; [discriminate|exact (Hraw _ _ _ Hin)]. }
  rewrite Heq.
  unfold row_keys, page_subset, key_of in Hnd. cbn [map] in Hnd.
  rewrite <- (map_map (fun x : nat * Record => py_lookup "id" (snd x)) (fun o => [o])) in Hnd.
  exact (NoDup_map_inv _ _ Hnd).
Qed.

(** The leads returned by [bulk_get_leads] have pairwise distinct
    [(created_at, lead_id, page_id, variant_id)] keys, with or without the
    lead id filter, provided the API's records carry no [lead_id] field of
    their own. *)
Theorem leads_returned_keys_distinct fuel c ds de lids pids w l w' :
  (forall k q r, In r (respond (client c) k q) -> py_lookup "lead_id" r = None) ->
  bulk_get_leads fuel c ds de lids pids w = (Ok l, w') ->
  NoDup (map (key_of ["created_at"; "lead_id"; "page_id"; "variant_id"]) l).
Proof.
  intros Hraw H. apply bulk_get_leads_ok_inv in H as [pages [w1 [st [_ [El Ef]]]]].
  destruct (leads_for_grows _ _ _ _ _ _ (init_state ds [] 0) _ _ _ (NoDup_nil _) El)
    as [Hnd [t [Ht Hp]]].
  cbn [init_state ls_acc app] in Ht. subst t.
  assert (Hs : subseq l (map (rename_field "id" "lead_id") (map snd (ls_acc st)))).
  { unfold leads_finish in Ef. cbv zeta in Ef.
    destruct lids as [ll|]; [destruct (list_truthy (Some ll))|];
      [apply filter_isin_subseq in Ef; exact Ef| |]; inversion Ef; apply subseq_refl. }
  apply (subseq_nodup_map _ _ _ Hs). rewrite !map_map.
  assert (Heq : map (fun x : nat * Record =>
                       key_of ["created_at"; "lead_id"; "page_id"; "variant_id"]
                         (rename_field "id" "lead_id" (snd x))) (ls_acc st)
                = map (fun x : nat * Record => key_of lead_subset (snd x)) (ls_acc st)).
  { apply map_ext_in. intros x Hx. destruct (Hp x Hx) as [k [q Hin]].
    unfold key_of, lead_subset. cbn [map].
    rewrite (py_lookup_rename_new "id" "lead_id"); [|discriminate|exact (Hraw _ _ _ Hin)].
    rewrite !py_lookup_rename_other by discriminate. reflexivity. }
  rewrite Heq. exact Hnd.
Qed.

Lemma pgov_run_app cnt l1 l2 :
  pgov_run cnt (l1 ++ l2) = match pgov_run cnt l1 with Some k => pgov_run k l2 | None => None end.
Proof.
  revert cnt; induction l1 as [|e l1 IH]; intro cnt; simpl; [reflexivity|].
  destruct (pgov_step cnt e); auto.
Qed.

Lemma pages_iter_gov c start de st w b st' w' :
  (ls_itr st < 495)%nat ->
  fetch_iter c start (fun ds => QPages ds de) page_subset "createdAt" st w = (Ok (b, st'), w') ->
  exists L, w_log w' = w_log w ++ L /\ pgov_run (ls_itr st) L = Some (ls_itr st')
            /\ (ls_itr st' < 495)%nat.
Proof.
  intros Hi H. apply fetch_iter_ok in H as [_ Hcase].
  destruct Hcase as [[Hp [_ [-> ->]]]|[Hne [_ [_ [_ [_ Hb]]]]]].
  - eexists; split; [reflexivity|]. rewrite Hp. simpl.
    destruct (Nat.ltb_spec (ls_itr st) 495); [|lia]. split; auto.
  - destruct (respond (client c) (w_calls w) (QPages (ls_date_start st) de)) as [|r rs] eqn:Er;
      [contradiction|].
    destruct Hb as [[Hn [Hs ->]]|[Hn [Hs ->]]].
    + eexists; split; [reflexivity|]. simpl.
      destruct (Nat.ltb_spec (ls_itr st) 495); [|lia]. rewrite Hs. split; auto. lia.
    + eexists; split; [cbn [after_sleep after_request w_log]; rewrite <- app_assoc; reflexivity|].
      simpl. destruct (Nat.ltb_spec (ls_itr st) 495); [|lia]. rewrite Hn. simpl.
      rewrite Hs. split; auto. lia.
Qed.

Lemma pages_loop_gov c start de fuel st w st' w' :
  (ls_itr st < 495)%nat ->
  pages_loop c start de fuel st w = (Ok st', w') ->
  exists L, w_log w' = w_log w ++ L /\ pgov_run (ls_itr st) L = Some (ls_itr st')
            /\ (ls_itr st' < 495)%nat.
Proof.
  unfold pages_loop. revert st w; induction fuel as [|fuel IH]; intros st w Hi H;
    cbn [fetch_while] in H; [discriminate|].
  unfold bind at 1 in H.
  destruct (fetch_iter c start (fun ds => QPages ds de) page_subset "createdAt" st w)
    as [[[b st1]|e] w1] eqn:E; [|discriminate].
  destruct (pages_iter_gov _ _ _ _ _ _ _ _ Hi E) as [L1 [HL1 [Hg1 Hi1]]].
  destruct b.
  - destruct (IH st1 w1 Hi1 H) as [L2 [HL2 [Hg2 Hi2]]].
    exists (L1 ++ L2). rewrite HL2, HL1, app_assoc. split; [reflexivity|].
    rewrite pgov_run_app, Hg1. auto.
  - unfold ret in H. inversion H; subst. exists L1. auto.
Qed.

(** The rate governor of [bulk_get_pages], read off its request log: a
    counter starting at 0 counts the requests that returned pages; each time
    it reaches 495 a 60-second pause follows before any further request and
    the counter restarts at 0; there is no other pause, and every request
    is a page request. *)
Theorem pages_rate_governor fuel c ds de dl pl stt w l w' :
  bulk_get_pages fuel c ds de dl pl stt w = (Ok l, w') ->
  exists L k, w_log w' = w_log w ++ L /\ pgov_run 0 L = Some k /\ (k < 495)%nat.
Proof.
  intro H. apply bulk_get_pages_loop_split in H as [st [E _]].
  destruct (pages_loop_gov _ _ _ _ (init_state ds [] 0) _ _ _ ltac:(cbn; lia) E)
    as [L [HL [Hg Hk]]].
  exists L, (ls_itr st). auto.
Qed.

Lemma fetch_iter_log c start mkq subset fld st w b st' w' :
  fetch_iter c start mkq subset fld st w = (Ok (b, st'), w') ->
  exists n L, w_log w' = w_log w ++ EvReq (mkq (ls_date_start st)) n :: L /\
              (L = [] \/ L = [EvSleep 60]).
Proof.
  intro H. apply fetch_iter_ok in H as [_ Hcase].
  destruct Hcase as [[_ [_ [_ ->]]]|[_ [_ [_ [_ [_ [[_ [_ ->]]|[_ [_ ->]]]]]]]]];
    eexists; eexists; (split; [cbn [after_sleep after_request w_log]; rewrite <- ?app_assoc;
                               reflexivity|]); auto.
Qed.

Lemma leads_loop_segment c start pid de fuel st w st' w' :
  leads_loop c start pid de fuel st w = (Ok st', w') ->
  exists n rest, w_log w' = w_log w ++ EvReq (QLeads pid (ls_date_start st) de) n :: rest /\
                 Forall (same_page_event pid de) rest.
Proof.
  unfold leads_loop. revert st w; induction fuel as [|fuel IH]; intros st w H;
    cbn [fetch_while] in H; [discriminate|].
  unfold bind at 1 in H.
  destruct (fetch_iter c start (fun ds => QLeads pid ds de) lead_subset "created_at" st w)
    as [[[b st1]|e] w1] eqn:E; [|discriminate].
  destruct (fetch_iter_log _ _ _ _ _ _ _ _ _ _ E) as [n [L [HL HLs]]].
  assert (HF : Forall (same_page_event pid de) L)
    by (destruct HLs as [->| ->]; repeat constructor).
  exists n. destruct b.
  - destruct (IH st1 w1 H) as [n' [rest' [Hl' Hf']]].
    exists (L ++ EvReq (QLeads pid (ls_date_start st1) de) n' :: rest').
    rewrite Hl', HL, <- app_assoc. split; [reflexivity|].
    apply Forall_app. split; [exact HF|]. constructor; [simpl; auto|exact Hf'].
  - unfold ret in H. inversion H; subst. exists L. auto.
Qed.

Lemma leads_for_segments fuel c start og de ids st w st' w' :
  leads_for fuel c start og de ids st w = (Ok st', w') ->
  exists segs, w_log w' = w_log w ++ concat segs /\ Forall2 (lead_segment og de) ids segs.
Proof.
  revert st w; induction ids as [|pid ids IH]; intros st w H; simpl in H.
  - unfold ret in H. inversion H; subst. exists []. rewrite app_nil_r. auto.
  - unfold bind in H.
    destruct (leads_loop c start pid de fuel (reset_cursor og st) w) as [[st1|e] w1] eqn:E;
      [|discriminate].
    destruct (leads_loop_segment _ _ _ _ _ _ _ _ _ E) as [n [rest [Hl Hf]]].
    destruct (IH _ _ H) as [segs [Hls Hsegs]].
    exists ((EvReq (QLeads pid og de) n :: rest) :: segs).
    rewrite Hls, Hl. cbn [concat reset_cursor ls_date_start]. rewrite <- app_assoc.
    split; [reflexivity|]. constructor; [|exact Hsegs]. exists n, rest. auto.
Qed.

(** The lead requests of [bulk_get_leads]: after the page lookup, which is
    [bulk_get_pages] with only [date_end], the page ids the lookup returned
    are handled one after the other, in order. For each one the log holds a
    segment that starts with a request for that page id from the caller's
    [date_start] (the cursor is reset for every page id), followed only by
    requests for the same page id with the caller's [date_end] and pauses. *)
Theorem leads_requests_per_page_id fuel c ds de lids pids w l w' :
  bulk_get_leads fuel c ds de lids pids w = (Ok l, w') ->
  exists pages w1 segs,
    bulk_get_pages fuel c None de None None None w = (Ok pages, w1) /\
    w_log w' = w_log w1 ++ concat segs /\
    Forall2 (lead_segment ds de) (ids_values (IdsSeries (map (py_lookup "page_id") pages))) segs.
Proof.
  intro H. apply bulk_get_leads_ok_inv in H as [pages [w1 [st [Ep [El _]]]]].
  destruct (leads_for_segments _ _ _ _ _ _ _ _ _ _ El) as [segs [Hl Hs]].
  exists pages, w1, segs. auto.
Qed.

(** The rate counter of [bulk_get_leads], read off its request log: the
    page lookup runs in [bulk_get_pages] with that method's own counter, so
    its requests are not counted by the lead counter.  After the lookup,
    one counter [itr], starting at 0 and shared by all page ids, counts the
    lead requests that returned records (a request that returns none leaves
    the loop before [itr += 1]); each time it reaches 495 a 60 second pause
    follows before any further request, and the counter restarts at 0. *)
Theorem leads_rate_governor fuel c ds de lids pids w l w' :
  bulk_get_leads fuel c ds de lids pids w = (Ok l, w') ->
  exists L1 L2 k, w_log w' = w_log w ++ L1 ++ L2 /\ Forall lookup_event L1 /\
    gov_run 0 L2 = Some k /\ (k < 495)%nat.
Proof.
  intro H. apply bulk_get_leads_ok_inv in H as [pages [w1 [st [Ep [El _]]]]].
  destruct (bulk_get_pages_lookup_events _ _ _ _ _ _ _ _ _ _ Ep) as [L1 [HL1 HF1]].
  destruct (leads_for_gov _ _ _ _ _ _ (init_state ds [] 0) _ _ _ ltac:(cbn; lia) El)
    as [L2 [HL2 [Hg Hk]]].
  exists L1, L2, (ls_itr st). rewrite HL2, HL1, app_assoc. auto.
Qed.

(** ** Witnesses for the further properties *)

Lemma bulk_get_pages_filters_witness :
  pages_loop (conn_of boundary_client) (w_now w0) None 10 (init_state None [] 0) w0
    = (Ok boundary_st2, boundary_w2) /\
  bulk_get_pages 10 (conn_of boundary_client) None None (Some [PStr "a.example.com"]) None None w0
    = (Ok [rename_field "id" "page_id" page_a], boundary_w2).
Proof.
  assert (E : pages_loop (conn_of boundary_client) (w_now w0) None 10 (init_state None [] 0) w0
                = (Ok boundary_st2, boundary_w2)) by (vm_compute; reflexivity).
  split; [exact E|].
  pose proof (bulk_get_pages_filters 10 (conn_of boundary_client) None None
    (Some [PStr "a.example.com"]) None None w0 boundary_st2 boundary_w2 E) as H.
  cbv zeta in H. rewrite H. vm_compute. reflexivity.
Defined.

Lemma pages_filter_on_no_pages_raises_key_error_witness :
  exists w', bulk_get_pages 1 (conn_of (script_client [])) None None
               (Some [PStr "a.example.com"]) None None w0 = (Err KeyError, w') /\
             w_calls w' = S (w_calls w0).
Proof.
  apply (pages_filter_on_no_pages_raises_key_error 1 (conn_of (script_client [])) None None
    (Some [PStr "a.example.com"]) None None w0).
  - lia.
  - apply Z.leb_le; vm_compute; reflexivity.
  - reflexivity.
  - reflexivity.
Defined.

Lemma bulk_extract_ignores_filter_order_witness :
  bulk_extract ymd_strptime 10 (conn_of boundary_client) "pages"
    (PDict [("state", PStr "published"); ("domain_list", PList [PStr "a.example.com"])]) w0 =
  bulk_extract ymd_strptime 10 (conn_of boundary_client) "pages"
    (PDict [("domain_list", PList [PStr "a.example.com"]); ("state", PStr "published")]) w0.
Proof.
  apply bulk_extract_ignores_filter_order.
  - repeat constructor; simpl; intuition discriminate.
  - apply perm_swap.
Defined.

Lemma pages_returned_ids_distinct_witness :
  (forall k q r, In r (respond (client (conn_of boundary_client)) k q) ->
                 py_lookup "page_id" r = None) /\
  bulk_get_pages 10 (conn_of boundary_client) None None None None None w0
    = (Ok (map (rename_field "id" "page_id") [page_a; page_b]), boundary_w2) /\
  NoDup (map (py_lookup "page_id") (map (rename_field "id" "page_id") [page_a; page_b])).
Proof.
  assert (Hr : forall k q r, In r (respond (client (conn_of boundary_client)) k q) ->
                             py_lookup "page_id" r = None).
  { intros k q r Hin. cbv [conn_of client boundary_client script_client respond] in Hin.
    destruct k as [|[|k]]; cbn [nth] in Hin.
    - destruct Hin as [<-|[<-|[]]]; vm_compute; reflexivity.
    - destruct Hin as [<-|[]]; vm_compute; reflexivity.
    - destruct k; contradiction. }
  assert (E : bulk_get_pages 10 (conn_of boundary_client) None None None None None w0
                = (Ok (map (rename_field "id" "page_id") [page_a; page_b]), boundary_w2))
    by (vm_compute; reflexivity).
  split; [exact Hr|]. split; [exact E|].
  exact (pages_returned_ids_distinct 10 (conn_of boundary_client) None None None None None w0
    _ _ Hr E).
Defined.

Lemma leads_returned_keys_distinct_witness :
  (forall k q r, In r (respond (client (conn_of one_lead_client)) k q) ->
                 py_lookup "lead_id" r = None) /\
  bulk_get_leads 10 (conn_of one_lead_client) None None None None w0
    = (Ok [rename_field "id" "lead_id" (mk_lead "l1" "2020-01-03T00:00:00Z" "pa")], one_lead_w) /\
  NoDup (map (key_of ["created_at"; "lead_id"; "page_id"; "variant_id"])
           [rename_field "id" "lead_id" (mk_lead "l1" "2020-01-03T00:00:00Z" "pa")]).
Proof.
  assert (Hr : forall k q r, In r (respond (client (conn_of one_lead_client)) k q) ->
                             py_lookup "lead_id" r = None).
  { intros k q r Hin. cbv [conn_of client one_lead_client respond] in Hin.
    destruct q; destruct Hin as [<-|[]]; vm_compute; reflexivity. }
  assert (E : bulk_get_leads 10 (conn_of one_lead_client) None None None None w0
                = (Ok [rename_field "id" "lead_id" (mk_lead "l1" "2020-01-03T00:00:00Z" "pa")],
                   one_lead_w)) by (vm_compute; reflexivity).
  split; [exact Hr|]. split; [exact E|].
  exact (leads_returned_keys_distinct 10 (conn_of one_lead_client) None None None None w0
    _ _ Hr E).
Defined.

Lemma pages_rate_governor_witness :
  exists L k, w_log boundary_w2 = w_log w0 ++ L /\ pgov_run 0 L = Some k /\ (k < 495)%nat.
Proof.
  apply (pages_rate_governor 10 (conn_of boundary_client) None None None None None w0
    (map (rename_field "id" "page_id") [page_a; page_b]) boundary_w2).
  vm_compute. reflexivity.
Defined.

Lemma leads_requests_per_page_id_witness :
  exists pages w1 segs,
    bulk_get_pages 10 (conn_of one_lead_client) None None None None None w0 = (Ok pages, w1) /\
    w_log one_lead_w = w_log w1 ++ concat segs /\
    Forall2 (lead_segment None None) (ids_values (IdsSeries (map (py_lookup "page_id") pages))) segs.
Proof.
  apply (leads_requests_per_page_id 10 (conn_of one_lead_client) None None None None w0
    [rename_field "id" "lead_id" (mk_lead "l1" "2020-01-03T00:00:00Z" "pa")] one_lead_w).
  vm_compute. reflexivity.
Defined.

Lemma leads_rate_governor_witness :
  exists L1 L2 k, w_log one_lead_w = w_log w0 ++ L1 ++ L2 /\ Forall lookup_event L1 /\
    gov_run 0 L2 = Some k /\ (k < 495)%nat.
Proof.
  apply (leads_rate_governor 10 (conn_of one_lead_client) None None None None w0
    [rename_field "id" "lead_id" (mk_lead "l1" "2020-01-03T00:00:00Z" "pa")] one_lead_w).
  vm_compute. reflexivity.
Defined.
